(** * pySim-shell: tree walk, export and prompt of the card file system

    Shallow embedding of [pySim-shell.py] (classes [PysimApp] and
    [Iso7816Commands]) and of the service table of [pySim/ts_31_102.py].

    The shell drives a [RuntimeState] object of [pySim.filesystem], a
    module that is not among the sources.  Its methods are taken as the
    operations of a type class, so that everything proved about [walk],
    [export], [do_export], [do_select] and [update_prompt] holds for every
    implementation of them.  Module [Filesystem] gives one implementation,
    written after the specification, on which the statements that need the
    meaning of SELECT are settled. *)

From Stdlib Require Import ZArith String List Lia Bool Ascii DecimalString.
From Stdlib Require DecimalPos DecimalFacts.
From stdpp Require Import gmap strings.
Import ListNotations.

Local Open Scope string_scope.
Local Open Scope list_scope.

(** ** Python values and helpers *)

(** An exception is kept as the text [str(e)] that [export] prints. *)
Definition exn : Type := string.

(** ['/'.join(l)] *)
Definition join (sep : string) (l : list string) : string := String.concat sep l.

(** ["%d" % z] *)
Definition str_int (z : Z) : string := NilZero.string_of_int (Z.to_int z).

(** [s * n] for a string [s] *)
Fixpoint str_repeat (s : string) (n : nat) : string :=
  match n with
  | O => ""
  | S n' => s +:+ str_repeat s n'
  end.

(** [range(lo, hi)] *)
Definition range (lo hi : Z) : list Z :=
  map (fun i => (lo + Z.of_nat i)%Z) (seq 0 (Z.to_nat (hi - lo))).

(** [l[-1]]: the last element, [IndexError] on the empty list. *)
Definition last_item (l : list string) : exn + string :=
  match rev l with
  | [] => inl "list index out of range"
  | x :: _ => inr x
  end.

(** [d[key]] on a dictionary that may lack [key]: [KeyError], whose text
    is the quoted key. *)
Definition getitem {A : Type} (key : string) (field : option A) : exn + A :=
  match field with
  | Some v => inr v
  | None => inl ("'" +:+ key +:+ "'")
  end.

(** The decoded FCP that [select] returns, as far as [export] reads it:
    [fcp_dec['file_descriptor']['structure']] and
    [fcp_dec['file_descriptor']['num_of_rec']]. *)
Record file_descriptor : Type := mk_fd {
  structure : option string;
  num_of_rec : option Z
}.

Record fcp_dec : Type := mk_fcp {
  fcp_file_descriptor : option file_descriptor
}.

(** ** The runtime state the shell works on

    [rs.select(name, cmd)], [rs.selected_file.fully_qualified_path(prefer_name)],
    [rs.selected_file.get_selectable_names(flags)], [rs.read_binary()] and
    [rs.read_record(r)].  A method that talks to the card returns either
    an exception or a value, together with the state it leaves behind.
    [read_binary] and [read_record] give the first component of the
    result tuple, which is all [export] uses. *)
Class RuntimeState (RS : Type) : Type := {
  select : string -> RS -> (exn + fcp_dec) * RS;
  fully_qualified_path : bool -> RS -> list string;
  get_selectable_names : list string -> RS -> list string;
  read_binary : RS -> (exn + string) * RS;
  read_record : Z -> RS -> (exn + string) * RS
}.

(** ** Commands as state transformers with exceptions *)

(** How a call ends: with a value, with a Python exception, or, for the
    bounded recursion of [walk], without fuel. *)
Inductive outcome (A : Type) : Type :=
  | Return (a : A)
  | Raise (e : exn)
  | OutOfFuel.

Arguments Return {A} a.
Arguments Raise {A} e.
Arguments OutOfFuel {A}.

(** A command on a state [St]: the outcome and the state it leaves, also
    when it raises. *)
Definition M (St A : Type) : Type := St -> outcome A * St.

Definition ret {St A} (a : A) : M St A := fun s => (Return a, s).

Definition bind {St A B} (c : M St A) (k : A -> M St B) : M St B :=
  fun s =>
    match c s with
    | (Return a, s') => k a s'
    | (Raise e, s') => (Raise e, s')
    | (OutOfFuel, s') => (OutOfFuel, s')
    end.

Declare Scope shell_scope.
Delimit Scope shell_scope with shell.
Notation "x <- c ;; k" := (bind c (fun x => k))
  (at level 100, c at next level, right associativity) : shell_scope.
Notation "c ;; k" := (bind c (fun _ => k))
  (at level 100, right associativity) : shell_scope.
Local Open Scope shell_scope.

(** [try: body except Exception as e: handler(e)].  Running out of fuel
    is not an exception and is not caught. *)
Definition try_except {St A} (body : M St A) (handler : exn -> M St A) : M St A :=
  fun s =>
    match body s with
    | (Raise e, s') => handler e s'
    | r => r
    end.

(** [for x in l: body(x)] *)
Fixpoint for_each {St A} (l : list A) (body : A -> M St unit) : M St unit :=
  match l with
  | [] => ret tt
  | x :: l' => body x ;; for_each l' body
  end.

(** A pure operation that may raise. *)
Definition lift_result {St A} (r : exn + A) : M St A :=
  fun s => match r with inl e => (Raise e, s) | inr a => (Return a, s) end.

(** ** The application object *)

Section Shell.

Context {RS : Type} `{RuntimeState RS}.

(** [PysimApp]: the fields the commands read and write, and the texts
    handed to [poutput], one for each call, oldest first. *)
Record PysimApp : Type := mk_app {
  rs : RS;
  numeric_path : bool;
  prompt : string;
  stdout : list string
}.

Definition Cmd (A : Type) : Type := M PysimApp A.

Definition poutput (line : string) : Cmd unit :=
  fun app => (Return tt, mk_app (rs app) (numeric_path app) (prompt app) (stdout app ++ [line])).

(** A call of a method of [self._cmd.rs] that may raise. *)
Definition call {A} (op : RS -> (exn + A) * RS) : Cmd A :=
  fun app =>
    let '(r, rs') := op (rs app) in
    let app' := mk_app rs' (numeric_path app) (prompt app) (stdout app) in
    match r with
    | inl e => (Raise e, app')
    | inr a => (Return a, app')
    end.

(** A query of [self._cmd.rs.selected_file]. *)
Definition ask {A} (q : RS -> A) : Cmd A :=
  fun app => (Return (q (rs app)), app).

(** [PysimApp.update_prompt] *)
Definition update_prompt : Cmd unit :=
  fun app =>
    let path_list := fully_qualified_path (negb (numeric_path app)) (rs app) in
    (Return tt,
     mk_app (rs app) (numeric_path app)
            ("pySIM-shell (" +:+ join "/" path_list +:+ ")> ") (stdout app)).

(** [PysimApp._onchange_numeric_path] *)
Definition _onchange_numeric_path (param_name : string) (old new : bool) : Cmd unit :=
  update_prompt.

(** [set numeric_path <new>]: cmd2 stores the new value in the attribute
    and then calls the [onchange_cb] of the settable, here
    [_onchange_numeric_path]; what cmd2 prints by itself is left out. *)
Definition set_numeric_path (new : bool) : Cmd unit :=
  fun app =>
    let old := numeric_path app in
    _onchange_numeric_path "numeric_path" old new
      (mk_app (rs app) new (prompt app) (stdout app)).

(** [Iso7816Commands.do_select]; [path] is [opts.arg_list[0]] and
    [json_dumps] stands for [json.dumps(fcp_dec, indent=4)]. *)
Definition do_select (json_dumps : fcp_dec -> string) (path : string) : Cmd unit :=
  fcp_dec <- call (select path) ;;
  update_prompt ;;
  poutput (json_dumps fcp_dec).

(** [f[0:2] == "DF" or f[0:3] == 'ADF'] *)
Definition is_df_name (f : string) : bool :=
  String.eqb (substring 0 2 f) "DF" || String.eqb (substring 0 3 f) "ADF".

(** The body of the [for] loop of [walk], for one name [f] of [files];
    [recurse] is the call [self.walk(indent + 1, action)]. *)
Definition walk_file (recurse : Cmd unit) (indent : nat)
    (action : option (string -> Cmd unit)) (f : string) : Cmd unit :=
  match action with
  | None => poutput (str_repeat "  " indent +:+ f)
  | Some _ => ret tt
  end ;;
  if is_df_name f then
    _ <- call (select f) ;;
    recurse ;;
    _ <- call (select "..") ;;
    ret tt
  else
    match action with
    | Some act => act f
    | None => ret tt
    end.

(** [Iso7816Commands.walk].  The recursion follows the answers of the
    card and not a datum of the program, so it is bounded by [fuel]. *)
Fixpoint walk (fuel : nat) (indent : nat) (action : option (string -> Cmd unit))
  : Cmd unit :=
  match fuel with
  | O => fun app => (OutOfFuel, app)
  | S fuel' =>
      files <- ask (get_selectable_names ["NAMES"; "APPS"]) ;;
      for_each files (walk_file (walk fuel' (indent + 1) action) indent action)
  end.

(** [Iso7816Commands.do_tree] *)
Definition do_tree (fuel : nat) : Cmd unit := walk fuel 0 None.

(** The [try] block of [export]. *)
Definition export_try (filename : string) : Cmd unit :=
  fcp_dec <- call (select filename) ;;
  path_list <- ask (fully_qualified_path true) ;;
  path_list_fid <- ask (fully_qualified_path false) ;;
  name <- lift_result (last_item path_list) ;;
  fid <- lift_result (last_item path_list_fid) ;;
  poutput ("# file:" +:+ name +:+ " (" +:+ fid +:+ ")") ;;
  fd <- lift_result (getitem "file_descriptor" (fcp_file_descriptor fcp_dec)) ;;
  structure <- lift_result (getitem "structure" (structure fd)) ;;
  poutput ("# structure: " +:+ structure) ;;
  for_each path_list (fun f => poutput ("select " +:+ f)) ;;
  (if String.eqb structure "transparent" then
     result <- call read_binary ;;
     poutput ("update_binary " +:+ result)
   else ret tt) ;;
  (if String.eqb structure "cyclic" || String.eqb structure "linear_fixed" then
     num_of_rec <- lift_result (getitem "num_of_rec" (num_of_rec fd)) ;;
     for_each (range 1 (num_of_rec + 1)) (fun r =>
       result <- call (read_record r) ;;
       poutput ("update_record " +:+ str_int r +:+ " " +:+ result))
   else ret tt) ;;
  _ <- call (select "..") ;;
  ret tt.

(** [Iso7816Commands.export] *)
Definition export (filename : string) : Cmd unit :=
  path_list <- ask (fully_qualified_path true) ;;
  path_list_fid <- ask (fully_qualified_path false) ;;
  poutput ("# directory:" +:+ join "/" path_list +:+ " (" +:+ join "/" path_list_fid +:+ ")") ;;
  try_except (export_try filename)
             (fun e => poutput ("# bad file:" +:+ filename +:+ ", " +:+ e)) ;;
  poutput "#".

(** [Iso7816Commands.do_export]; [filename] is [opts.filename], [None]
    when the option is absent.  The test [if opts.filename:] is Python
    truth of a string: it fails on [None] and on the empty string. *)
Definition do_export (fuel : nat) (filename : option string) : Cmd unit :=
  match filename with
  | Some name => if String.eqb name "" then walk fuel 0 (Some export) else export name
  | None => walk fuel 0 (Some export)
  end.

End Shell.

Arguments PysimApp RS : clear implicits.
Arguments Cmd RS A : clear implicits.

(** ** Notions used to state the properties of the commands *)

Section ShellSpec.

Context {RS : Type} `{RuntimeState RS}.

(** The answers of the card to [read_record] for the given indices, one
    after the other, up to the first error. *)
Fixpoint read_records (indices : list Z) (st : RS) : (exn + list string) * RS :=
  match indices with
  | [] => (inr [], st)
  | r :: rest =>
      match read_record r st with
      | (inl e, st') => (inl e, st')
      | (inr hex, st') =>
          match read_records rest st' with
          | (inl e, st'') => (inl e, st'')
          | (inr hexes, st'') => (inr (hex :: hexes), st'')
          end
      end
  end.

(** The line of the export for record [fst entry] with data [snd entry]. *)
Definition record_line (entry : Z * string) : string :=
  "update_record " +:+ str_int (fst entry) +:+ " " +:+ snd entry.

(** [dumped s fd st lines st']: the data of the selected file, of decoded
    structure [s], were read without error from state [st], which gave
    the update lines [lines] and left the runtime state [st']. *)
Inductive dumped : string -> file_descriptor -> RS -> list string -> RS -> Prop :=
  | dumped_transparent fd st hex st' :
      read_binary st = (inr hex, st') ->
      dumped "transparent" fd st ["update_binary " +:+ hex] st'
  | dumped_records s fd st n hexes st' :
      s = "linear_fixed" \/ s = "cyclic" ->
      num_of_rec fd = Some n ->
      read_records (range 1 (n + 1)) st = (inr hexes, st') ->
      dumped s fd st (map record_line (combine (range 1 (n + 1)) hexes)) st'
  | dumped_nothing s fd st :
      s <> "transparent" -> s <> "linear_fixed" -> s <> "cyclic" ->
      dumped s fd st [] st.

(** The line [export] adds when the closing [select("..")] raises. *)
Definition closing (filename : string) (r : exn + fcp_dec) : list string :=
  match r with
  | inl e => ["# bad file:" +:+ filename +:+ ", " +:+ e]
  | inr _ => []
  end.

(** [prints P c]: from every state, [c] does not run out of fuel, leaves
    [numeric_path] and [prompt] alone, and appends to the output only
    lines that satisfy [P]. *)
Definition prints {A} (P : string -> Prop) (c : Cmd RS A) : Prop :=
  forall app,
    fst (c app) <> OutOfFuel /\
    numeric_path (snd (c app)) = numeric_path app /\
    prompt (snd (c app)) = prompt app /\
    exists lines, stdout (snd (c app)) = stdout app ++ lines /\ Forall P lines.

(** [preserves P c]: [c] keeps the property [P] of the application,
    however it ends. *)
Definition preserves {A} (P : PysimApp RS -> Prop) (c : Cmd RS A) : Prop :=
  forall app, P app -> P (snd (c app)).

(** The lines of the export script. *)
Definition is_comment (line : string) : Prop :=
  exists rest, line = "#" +:+ rest.

Definition is_command (line : string) : Prop :=
  (exists segment, line = "select " +:+ segment) \/
  (exists hex, line = "update_binary " +:+ hex) \/
  (exists (index : Z) hex, line = "update_record " +:+ str_int index +:+ " " +:+ hex).

Definition script_line (line : string) : Prop := is_comment line \/ is_command line.

End ShellSpec.

(** ** Decimal numerals

    What the index of an [update_record] line is to be: the number of
    the record written in decimal digits, told from the characters of
    the text. *)

(** The value of a decimal digit. *)
Definition digit_value (c : ascii) : option N :=
  let n := N_of_ascii c in
  if ((48 <=? n) && (n <=? 57))%N then Some (n - 48)%N else None.

(** The number written by a string of decimal digits, the most
    significant digit first, after the digits that gave [acc]. *)
Fixpoint digits_value (acc : N) (s : string) : option N :=
  match s with
  | EmptyString => Some acc
  | String c s' =>
      match digit_value c with
      | Some d => digits_value (10 * acc + d) s'
      | None => None
      end
  end.

(** [decimal_numeral t r]: the text [t] is the decimal numeral of the
    number [r]: at least one character, digits only, no zero in front of
    another digit, and the digits write [r]. *)
Definition decimal_numeral (t : string) (r : Z) : Prop :=
  t <> "" /\
  (String.prefix "0" t = true -> t = "0") /\
  option_map Z.of_N (digits_value 0 t) = Some r.

(** The number a decimal number of the library stands for, after the
    digits that gave [acc]. *)
Fixpoint uint_value (acc : N) (d : Decimal.uint) : N :=
  match d with
  | Decimal.Nil => acc
  | Decimal.D0 d => uint_value (10 * acc) d
  | Decimal.D1 d => uint_value (10 * acc + 1) d
  | Decimal.D2 d => uint_value (10 * acc + 2) d
  | Decimal.D3 d => uint_value (10 * acc + 3) d
  | Decimal.D4 d => uint_value (10 * acc + 4) d
  | Decimal.D5 d => uint_value (10 * acc + 5) d
  | Decimal.D6 d => uint_value (10 * acc + 6) d
  | Decimal.D7 d => uint_value (10 * acc + 7) d
  | Decimal.D8 d => uint_value (10 * acc + 8) d
  | Decimal.D9 d => uint_value (10 * acc + 9) d
  end.

(** ** A card file system

    [pySim.filesystem] is not among the sources.  The module below is one
    implementation of [RuntimeState], written after sections 3, 4.2, 4.3
    and 4.4 of the specification.  A node carries, beside its known
    children, the files the card holds under it that the tree does not
    know yet. *)

Module Filesystem.

(** Modelled from the spec: the data of an EF by structure tag.  A read
    of a transparent body, or of one record, is answered by the card with
    the bytes (in hex) or with an error. *)
Inductive ef_body : Type :=
  | Transparent (body : exn + string)
  | LinearFixed (records : list (exn + string))
  | Cyclic (records : list (exn + string))
  | BerTlv.

(** Modelled from the spec: the four variants of a file node. *)
Inductive file_type : Type :=
  | MF
  | DF
  | ADF
  | EF (body : ef_body).

(** Modelled from the spec: a file that the card holds and that is not
    registered in the tree: its file identifier, its type, and the files
    the card holds under it. *)
#[warnings="-register-all"] Inductive card_file : Type :=
  | CardFile (fid : string) (t : file_type) (inside : list card_file).

(** Modelled from the spec: the attributes of a node: type, file
    identifier (four hex digits), optional name, the answer of the card
    to a SELECT of the node ([None]: accepted), and the files the card
    holds under the node that the tree does not know yet. *)
Record attrs : Type := mk_attrs {
  f_type : file_type;
  f_fid : string;
  f_name : option string;
  f_select_error : option exn;
  f_unregistered : list card_file
}.

(** Modelled from the spec: the file tree; the children of a node are
    held in the stable order of its listing. *)
#[warnings="-register-all"] Inductive FileNode : Type :=
  | Node (a : attrs) (children : list FileNode).

(** Modelled from the spec: the attributes, the children, the name and
    the file identifier of a node. *)
Definition attrs_of (n : FileNode) : attrs := match n with Node a _ => a end.
Definition children (n : FileNode) : list FileNode := match n with Node _ cs => cs end.
Definition name_of (n : FileNode) : option string := f_name (attrs_of n).
Definition fid_of (n : FileNode) : string := f_fid (attrs_of n).

(** Modelled from the spec: what the runtime state asked of the card,
    oldest first. *)
Inductive request : Type :=
  | ReqSelect (path : string)
  | ReqReadBinary
  | ReqReadRecord (r : Z).

(** Modelled from the spec: the cursor (currently selected node), the
    selection stack below it (parent first, MF last) and the requests
    made so far. *)
Record state : Type := mk_state {
  cursor : FileNode;
  ancestors : list FileNode;
  requests : list request
}.

(** Modelled from the spec: the label of a node in a path: its name when
    names are preferred and it has one, its file identifier otherwise. *)
Definition label (prefer_name : bool) (n : FileNode) : string :=
  if prefer_name then
    match name_of n with Some s => s | None => fid_of n end
  else fid_of n.

(** Modelled from the spec: the labels of the selection stack from MF
    down to the cursor. *)
Definition path_labels (prefer_name : bool) (st : state) : list string :=
  map (label prefer_name) (rev (cursor st :: ancestors st)).

(** Modelled from the spec: the pieces of a path expression between the
    separators. *)
Fixpoint split_path (p : string) : list string :=
  match p with
  | EmptyString => [""]
  | String c p' =>
      if Ascii.eqb c "/" then "" :: split_path p'
      else match split_path p' with
           | [] => [String c ""]
           | x :: xs => String c x :: xs
           end
  end.

(** Modelled from the spec: the elements of a path expression. *)
Definition path_elements (p : string) : list string :=
  List.filter (fun el => negb (String.eqb el "")) (split_path p).

(** Modelled from the spec: an absolute path begins with the separator. *)
Definition is_absolute (p : string) : bool := String.prefix "/" p.

(** Modelled from the spec: one hex digit, of either case. *)
Definition is_hex_digit (c : ascii) : bool :=
  let n := nat_of_ascii c in
  (((48 <=? n) && (n <=? 57)) || ((65 <=? n) && (n <=? 70))
   || ((97 <=? n) && (n <=? 102)))%nat.

(** Modelled from the spec: a 4-hex-digit numeric file id. *)
Definition is_fid_token (el : string) : bool :=
  (String.length el =? 4)%nat && forallb is_hex_digit (list_ascii_of_string el).

(** Modelled from the spec: the known child an element names; a file-id
    match wins over a name match. *)
Definition resolve_child (n : FileNode) (el : string) : option FileNode :=
  let by_fid :=
    if is_fid_token el
    then find (fun c => String.eqb (fid_of c) el) (children n)
    else None in
  match by_fid with
  | Some c => Some c
  | None =>
      find (fun c => match name_of c with
                     | Some s => String.eqb s el
                     | None => false
                     end) (children n)
  end.

(** Modelled from the spec: a cursor with the selection stack below it. *)
Definition position : Type := FileNode * list FileNode.

(** Modelled from the spec: SELECT of a node as answered by the card. *)
Definition accept (n : FileNode) (pos : position) : exn + position :=
  match f_select_error (attrs_of n) with
  | None => inr pos
  | Some e => inl e
  end.

(** Modelled from the spec: a token that stands for the MF itself: its
    name or its file identifier.  [pySim-shell.py] selects the MF by
    this token wherever the cursor is: the main block calls
    [rs.select('MF', app)], and every entry written by [export] opens
    with the [select] of the first label of the path. *)
Definition is_mf_token (mf : FileNode) (el : string) : bool :=
  String.eqb el (fid_of mf)
  || match name_of mf with
     | Some s => String.eqb s el
     | None => false
     end.

(** Modelled from the spec: the direct SELECT of a token that names no
    known child of the node.  The card finds a file by its identifier:
    when the token is the identifier of a file it holds under the node,
    the card accepts, and a node without name is created from the answer
    and added after the known children.  The result is the created node
    and the node it was added to; [None] when the card answers
    file-not-found. *)
Definition discover (n : FileNode) (el : string) : option (FileNode * FileNode) :=
  let a := attrs_of n in
  let is_el f := match f with CardFile fid _ _ => String.eqb fid el end in
  if is_fid_token el then
    match find is_el (f_unregistered a) with
    | Some (CardFile fid t inside) =>
        let c := Node (mk_attrs t fid None None inside) [] in
        Some (c,
              Node (mk_attrs (f_type a) (f_fid a) (f_name a) (f_select_error a)
                             (List.filter (fun f => negb (is_el f)) (f_unregistered a)))
                   (children n ++ [c]))
    | None => None
    end
  else None.

(** Modelled from the spec: a node that changed takes the place of its
    former self among the children of its parent; file identifiers are
    unique among siblings. *)
Definition put_child (c p : FileNode) : FileNode :=
  Node (attrs_of p)
       (map (fun x => if String.eqb (fid_of x) (fid_of c) then c else x) (children p)).

(** Modelled from the spec: the tree only grows: a change of a node is
    carried into every node of the selection stack, up to the MF. *)
Fixpoint regraft (c : FileNode) (up : list FileNode) : list FileNode :=
  match up with
  | [] => []
  | p :: up' => put_child c p :: regraft (put_child c p) up'
  end.

(** Modelled from the spec: resolution of one path element: the
    parent-reference pops the stack and re-selects the parent, the
    current-node token does nothing, a known child is selected and
    pushed, a token for the MF selects the MF; any other token is sent
    to the card in a direct SELECT, which creates a node when the card
    accepts and fails with [PathNotFound] when it answers
    file-not-found. *)
Definition resolve_element (pos : position) (el : string) : exn + position :=
  let '(cur, up) := pos in
  if String.eqb el ".." then
    match up with
    | parent :: up' => accept parent (parent, up')
    | [] => inl ("PathNotFound: " +:+ el)
    end
  else if String.eqb el "." then inr pos
  else
    match resolve_child cur el with
    | Some c => accept c (c, cur :: up)
    | None =>
        let mf := List.last up cur in
        if is_mf_token mf el then accept mf (mf, [])
        else
          match discover cur el with
          | Some (c, cur') => inr (c, cur' :: regraft cur' up)
          | None => inl ("PathNotFound: " +:+ el)
          end
    end.

(** Modelled from the spec: resolution element by element, left to
    right, each element from the node the one before it selected. *)
Fixpoint resolve_elements (pos : position) (els : list string) : exn + position :=
  match els with
  | [] => inr pos
  | el :: els' =>
      match resolve_element pos el with
      | inl e => inl e
      | inr pos' => resolve_elements pos' els'
      end
  end.

(** Modelled from the spec: the descriptor decoded from the FCP of a
    node: the structure tag of an EF and, for record structures, the
    record count. *)
Definition decode_fcp (n : FileNode) : fcp_dec :=
  mk_fcp (Some
    match f_type (attrs_of n) with
    | EF (Transparent _) => mk_fd (Some "transparent") None
    | EF (LinearFixed rs) => mk_fd (Some "linear_fixed") (Some (Z.of_nat (length rs)))
    | EF (Cyclic rs) => mk_fd (Some "cyclic") (Some (Z.of_nat (length rs)))
    | EF BerTlv => mk_fd (Some "ber_tlv") None
    | _ => mk_fd None None
    end).

(** Modelled from the spec: the MF, at the bottom of the selection stack. *)
Definition root_of (st : state) : FileNode := List.last (ancestors st) (cursor st).

(** Modelled from the spec: [select(path)]: resolve element by element,
    from MF for an absolute path and from the cursor otherwise; commit
    cursor and stack only when the whole path resolved, leave them as
    they were on failure. *)
Definition fs_select (path : string) (st : state) : (exn + fcp_dec) * state :=
  let start := if is_absolute path then (root_of st, []) else (cursor st, ancestors st) in
  let reqs := requests st ++ [ReqSelect path] in
  match resolve_elements start (path_elements path) with
  | inr (c, up) => (inr (decode_fcp c), mk_state c up reqs)
  | inl e => (inl e, mk_state (cursor st) (ancestors st) reqs)
  end.

(** Modelled from the spec: the selectable children of the cursor in
    listing order, filtered by visibility class, and the pseudo-entries
    for the node itself and its parent. *)
Definition fs_get_selectable_names (flags : list string) (st : state) : list string :=
  let has fl := existsb (String.eqb fl) flags in
  flat_map (fun c =>
    match f_type (attrs_of c) with
    | ADF => if has "APPS" then match name_of c with Some s => [s] | None => [] end else []
    | _ => (if has "FIDS" then [fid_of c] else []) ++
           (if has "NAMES" then match name_of c with Some s => [s] | None => [] end else [])
    end) (children (cursor st))
  ++ (if has "SELF" then ["."] else [])
  ++ (if has "PARENT" then [".."] else []).

(** Modelled from the spec: one more request made of the card. *)
Definition log (r : request) (st : state) : state :=
  mk_state (cursor st) (ancestors st) (requests st ++ [r]).

(** Modelled from the spec: read of the whole body of the selected
    transparent EF. *)
Definition fs_read_binary (st : state) : (exn + string) * state :=
  (match f_type (attrs_of (cursor st)) with
   | EF (Transparent body) => body
   | EF _ => inl "StructureMismatch"
   | _ => inl "NoFileSelected"
   end, log ReqReadBinary st).

(** Modelled from the spec: read of record [r] (counted from 1) of the
    selected record-structured EF. *)
Definition fs_read_record (r : Z) (st : state) : (exn + string) * state :=
  (match f_type (attrs_of (cursor st)) with
   | EF (LinearFixed rs) | EF (Cyclic rs) =>
       if ((1 <=? r) && (r <=? Z.of_nat (length rs)))%Z
       then nth (Z.to_nat (r - 1)) rs (inl "OutOfRange")
       else inl "OutOfRange"
   | EF _ => inl "StructureMismatch"
   | _ => inl "NoFileSelected"
   end, log (ReqReadRecord r) st).

(** Modelled from the spec: the runtime state of the shell on such a card. *)
#[export] Instance card_runtime_state : RuntimeState state := {
  select := fs_select;
  fully_qualified_path := path_labels;
  get_selectable_names := fs_get_selectable_names;
  read_binary := fs_read_binary;
  read_record := fs_read_record
}.

End Filesystem.


Import Filesystem.

(** ** What the walk does on a tree

    The traversal of the tree under a node, told by recursion on the
    tree itself: the listing printed by [do_tree], the SELECTs of a
    depth-first walk, the names handed to an action, and the script
    written by the export. *)

Definition accepted (n : FileNode) : bool :=
  match f_select_error (attrs_of n) with
  | None => true
  | Some _ => false
  end.

(** The names of the named children, in listing order. *)
Definition names_of (cs : list FileNode) : list string :=
  flat_map (fun c => match name_of c with Some s => [s] | None => [] end) cs.

Definition no_slash (f : string) : bool :=
  forallb (fun c => negb (Ascii.eqb c "/")) (list_ascii_of_string f).

(** A name that is one path element and nothing else: not empty, free
    of the separator, neither of the two pseudo-entries, and not of the
    shape of a file identifier. *)
Definition plain_name (f : string) : bool :=
  negb (String.eqb f "") && negb (String.eqb f "..") && negb (String.eqb f ".")
  && no_slash f && negb (is_fid_token f).

Definition named (f : string) (c : FileNode) : bool :=
  match name_of c with
  | Some s => String.eqb s f
  | None => false
  end.

(** The names of siblings are plain and differ from each other. *)
Fixpoint names_ok (cs : list FileNode) : bool :=
  match cs with
  | [] => true
  | c :: cs' =>
      match name_of c with
      | Some f => plain_name f && negb (existsb (named f) cs')
      | None => true
      end && names_ok cs'
  end.

Fixpoint height (n : FileNode) : nat :=
  match n with
  | Node _ cs => S (list_max (map height cs))
  end.

(** [walkable ok_file n]: the card accepts the SELECT of [n] and of
    every node under it whose name begins with DF or ADF, sibling names
    are in order, and every other named node satisfies [ok_file]. *)
Fixpoint walkable (ok_file : FileNode -> bool) (n : FileNode) : bool :=
  match n with
  | Node _ cs =>
      accepted n && names_ok cs &&
      forallb (fun c =>
        match name_of c with
        | None => true
        | Some f => if is_df_name f then walkable ok_file c else ok_file c
        end) cs
  end.

(** The listing of [do_tree]: depth first, a node before its subtree,
    two more blanks per level. *)
Fixpoint tree_listing (indent : nat) (n : FileNode) : list string :=
  match n with
  | Node _ cs =>
      flat_map (fun c =>
        match name_of c with
        | None => []
        | Some f =>
            (str_repeat "  " indent +:+ f)
            :: (if is_df_name f then tree_listing (indent + 1) c else [])
        end) cs
  end.

(** The SELECTs of a depth-first walk: into a directory, through its
    subtree, and back to the parent. *)
Fixpoint dfs_selects (n : FileNode) : list request :=
  match n with
  | Node _ cs =>
      flat_map (fun c =>
        match name_of c with
        | None => []
        | Some f =>
            if is_df_name f
            then ReqSelect f :: dfs_selects c ++ [ReqSelect ".."]
            else []
        end) cs
  end.

(** The names a depth-first walk meets that do not begin with DF or ADF. *)
Fixpoint dfs_files (n : FileNode) : list string :=
  match n with
  | Node _ cs =>
      flat_map (fun c =>
        match name_of c with
        | None => []
        | Some f => if is_df_name f then dfs_files c else [f]
        end) cs
  end.

(** The values of the records that were read. *)
Definition values (answers : list (exn + string)) : list string :=
  flat_map (fun r => match r with inr v => [v] | inl _ => [] end) answers.

Definition all_read (answers : list (exn + string)) : bool :=
  forallb (fun r => match r with inr _ => true | inl _ => false end) answers.

(** An EF that the card lets select and read in full. *)
Definition readable (c : FileNode) : bool :=
  accepted c &&
  match f_type (attrs_of c) with
  | EF (Transparent (inr _)) => true
  | EF (Transparent (inl _)) => false
  | EF (LinearFixed answers) | EF (Cyclic answers) => all_read answers
  | EF BerTlv => true
  | _ => false
  end.

Definition structure_tag (c : FileNode) : string :=
  match f_type (attrs_of c) with
  | EF (Transparent _) => "transparent"
  | EF (LinearFixed _) => "linear_fixed"
  | EF (Cyclic _) => "cyclic"
  | EF BerTlv => "ber_tlv"
  | _ => ""
  end.

Definition data_lines (c : FileNode) : list string :=
  match f_type (attrs_of c) with
  | EF (Transparent (inr hex)) => ["update_binary " +:+ hex]
  | EF (LinearFixed answers) | EF (Cyclic answers) =>
      map record_line
          (combine (range 1 (Z.of_nat (length answers) + 1)) (values answers))
  | _ => []
  end.

Definition data_requests (c : FileNode) : list request :=
  match f_type (attrs_of c) with
  | EF (Transparent _) => [ReqReadBinary]
  | EF (LinearFixed answers) | EF (Cyclic answers) =>
      map ReqReadRecord (range 1 (Z.of_nat (length answers) + 1))
  | _ => []
  end.

(** The entry of the export for the readable file [c] of the directory
    [d], whose ancestors are [up]. *)
Definition export_entry (d : FileNode) (up : list FileNode) (c : FileNode)
  : list string :=
  let dir := rev (d :: up) in
  ["# directory:" +:+ join "/" (map (label true) dir)
     +:+ " (" +:+ join "/" (map (label false) dir) +:+ ")";
   "# file:" +:+ label true c +:+ " (" +:+ label false c +:+ ")";
   "# structure: " +:+ structure_tag c]
  ++ map (fun segment => "select " +:+ segment) (map (label true) (dir ++ [c]))
  ++ data_lines c ++ ["#"].

Definition export_requests (f : string) (c : FileNode) : list request :=
  [ReqSelect f] ++ data_requests c ++ [ReqSelect ".."].

(** The script of an export of the tree under [n]: the entries of the
    files a depth-first walk meets, in the order it meets them. *)
Fixpoint export_script (up : list FileNode) (n : FileNode) : list string :=
  match n with
  | Node _ cs =>
      flat_map (fun c =>
        match name_of c with
        | None => []
        | Some f => if is_df_name f then export_script (n :: up) c
                    else export_entry n up c
        end) cs
  end.

(** The outputs and requests of a walk whose action, run on the file
    [c] named [f] of the directory [d], writes [act_out d up f c] and
    asks [act_req d up f c]. *)
Section Trace.

Variable with_action : bool.
Variable act_out : FileNode -> list FileNode -> string -> FileNode -> list string.
Variable act_req : FileNode -> list FileNode -> string -> FileNode -> list request.

Fixpoint walk_out (indent : nat) (up : list FileNode) (n : FileNode) : list string :=
  match n with
  | Node _ cs =>
      flat_map (fun c =>
        match name_of c with
        | None => []
        | Some f =>
            (if with_action then [] else [str_repeat "  " indent +:+ f])
            ++ (if is_df_name f then walk_out (indent + 1) (n :: up) c
                else if with_action then act_out n up f c else [])
        end) cs
  end.

Fixpoint walk_req (up : list FileNode) (n : FileNode) : list request :=
  match n with
  | Node _ cs =>
      flat_map (fun c =>
        match name_of c with
        | None => []
        | Some f =>
            if is_df_name f
            then ReqSelect f :: walk_req (n :: up) c ++ [ReqSelect ".."]
            else if with_action then act_req n up f c else []
        end) cs
  end.

End Trace.

(** ** The depth-first traversal in pre-order

    The traversal of the tree under a node as the specification tells
    it, with the directories told by the first letters of their names
    and not by the test of [walk]. *)

(** A name that begins with DF or with ADF. *)
Definition df_or_adf_prefix (f : string) : bool :=
  String.prefix "DF" f || String.prefix "ADF" f.

(** The card accepts the SELECT of the node and of every node that is
    reached from it through names that begin with DF or ADF, and sibling
    names are in order. *)
Fixpoint directories_selectable (n : FileNode) : bool :=
  match n with
  | Node _ cs =>
      accepted n && names_ok cs &&
      forallb (fun c =>
        match name_of c with
        | None => true
        | Some f => if df_or_adf_prefix f then directories_selectable c else true
        end) cs
  end.

(** The names in pre-order: the children in the order of the listing,
    a child before the nodes under it, two more blanks per level. *)
Fixpoint preorder_listing (indent : nat) (n : FileNode) : list string :=
  match n with
  | Node _ cs =>
      flat_map (fun c =>
        match name_of c with
        | None => []
        | Some f =>
            (str_repeat "  " indent +:+ f)
            :: (if df_or_adf_prefix f then preorder_listing (indent + 1) c else [])
        end) cs
  end.

(** The SELECTs in pre-order: for a child whose name begins with DF or
    ADF the select of the child, the SELECTs for the subtree of the child
    and the select of the parent-reference; none for any other child. *)
Fixpoint preorder_selects (n : FileNode) : list request :=
  match n with
  | Node _ cs =>
      flat_map (fun c =>
        match name_of c with
        | None => []
        | Some f =>
            if df_or_adf_prefix f
            then [ReqSelect f] ++ preorder_selects c ++ [ReqSelect ".."]
            else []
        end) cs
  end.

(** The names in pre-order that begin neither with DF nor with ADF. *)
Fixpoint preorder_files (n : FileNode) : list string :=
  match n with
  | Node _ cs =>
      flat_map (fun c =>
        match name_of c with
        | None => []
        | Some f => if df_or_adf_prefix f then preorder_files c else [f]
        end) cs
  end.

(** ** Cards used as examples *)

(** A named EF that the card lets select. *)
Definition ef (fid name : string) (body : ef_body) : FileNode :=
  Node (mk_attrs (EF body) fid (Some name) None []) [].

(** A named MF, DF or ADF that the card lets select. *)
Definition directory (t : file_type) (fid name : string) (cs : list FileNode)
  : FileNode :=
  Node (mk_attrs t fid (Some name) None []) cs.

(** A card on which every file can be read. *)
Definition sim_card : FileNode :=
  directory MF "3F00" "MF"
    [ ef "2FE2" "EF.ICCID" (Transparent (inr "98104300000000000000"));
      directory DF "7F10" "DF.TELECOM"
        [ ef "6F3A" "EF.ADN" (LinearFixed [inr "ffff"; inr "0a0b"]);
          ef "6F49" "EF.SDN" (Cyclic [inr "01"]) ];
      directory DF "7F20" "DF.GSM"
        [ ef "6F07" "EF.IMSI" (Transparent (inr "082943051234567890")) ] ].

(** The same profile, on a card that refuses the read of EF.ADN until a
    PIN has been verified. *)
Definition locked_card : FileNode :=
  directory MF "3F00" "MF"
    [ directory DF "7F10" "DF.TELECOM"
        [ ef "6F3A" "EF.ADN"
             (Transparent (inl "SW match failed! Expected 9000 and got 6982.")) ];
      directory DF "7F20" "DF.GSM"
        [ ef "6F07" "EF.IMSI" (Transparent (inr "082943051234567890")) ] ].

(** The same profile on a card without DF.GSM: the SELECT of the
    registered node is answered file-not-found. *)
Definition usim_only_card : FileNode :=
  directory MF "3F00" "MF"
    [ directory DF "7F10" "DF.TELECOM"
        [ ef "6F3A" "EF.ADN" (LinearFixed [inr "ffff"; inr "0a0b"]) ];
      Node (mk_attrs DF "7F20" (Some "DF.GSM")
                     (Some "SW match failed! Expected 9000 and got 6a82.") []) [];
      directory ADF "7FFF" "ADF.USIM"
        [ ef "6F07" "EF.IMSI" (Transparent (inr "082943051234567890")) ] ].

(** A card whose names do not tell the types: an EF whose name begins
    with DF, and a DF whose name does not. *)
Definition odd_card : FileNode :=
  directory MF "3F00" "MF"
    [ ef "5F3A" "DF.PHONEBOOK" (Transparent (inr "00"));
      directory DF "7F10" "TELECOM"
        [ ef "6F3A" "EF.ADN" (LinearFixed [inr "ffff"]) ] ].

(** The shell right after start, with MF selected. *)
Definition shell_on (card : FileNode) : PysimApp state :=
  mk_app (mk_state card [] []) false "pySIM-shell (MF)> " [].

(** The shell on the locked card after [select DF.TELECOM]. *)
Definition shell_in_telecom : PysimApp state :=
  snd (do_select (fun _ => "{}") "DF.TELECOM" (shell_on locked_card)).

(** ** The USIM service table of [pySim/ts_31_102.py] *)

(** A dictionary display: a later entry for a key replaces an earlier one. *)
Definition dict_of (items : list (Z * string)) : gmap Z string :=
  foldl (fun m kv => <[fst kv := snd kv]> m) ∅ items.

(** [EF_UST_map] *)
Definition EF_UST_map : gmap Z string := dict_of [
  (1, "Local Phone Book");
  (2, "Fixed Dialling Numbers (FDN)");
  (3, "Extension 2");
  (4, "Service Dialling Numbers (SDN)");
  (5, "Extension3");
  (6, "Barred Dialling Numbers (BDN)");
  (7, "Extension4");
  (8, "Outgoing Call Information (OCI and OCT)");
  (9, "Incoming Call Information (ICI and ICT)");
  (10, "Short Message Storage (SMS)");
  (11, "Short Message Status Reports (SMSR)");
  (12, "Short Message Service Parameters (SMSP)");
  (13, "Advice of Charge (AoC)");
  (14, "Capability Configuration Parameters 2 (CCP2)");
  (15, "Cell Broadcast Message Identifier");
  (16, "Cell Broadcast Message Identifier Ranges");
  (17, "Group Identifier Level 1");
  (18, "Group Identifier Level 2");
  (19, "Service Provider Name");
  (20, "User controlled PLMN selector with Access Technology");
  (21, "MSISDN");
  (22, "Image (IMG)");
  (23, "Support of Localised Service Areas (SoLSA)");
  (24, "Enhanced Multi-Level Precedence and Pre-emption Service");
  (25, "Automatic Answer for eMLPP");
  (26, "RFU");
  (27, "GSM Access");
  (28, "Data download via SMS-PP");
  (29, "Data download via SMS-CB");
  (30, "Call Control by USIM");
  (31, "MO-SMS Control by USIM");
  (32, "RUN AT COMMAND command");
  (33, "shall be set to 1");
  (34, "Enabled Services Table");
  (35, "APN Control List (ACL)");
  (36, "Depersonalisation Control Keys");
  (37, "Co-operative Network List");
  (38, "GSM security context");
  (39, "CPBCCH Information");
  (40, "Investigation Scan");
  (41, "MexE");
  (42, "Operator controlled PLMN selector with Access Technology");
  (43, "HPLMN selector with Access Technology");
  (44, "Extension 5");
  (45, "PLMN Network Name");
  (46, "Operator PLMN List");
  (47, "Mailbox Dialling Numbers");
  (48, "Message Waiting Indication Status");
  (49, "Call Forwarding Indication Status");
  (50, "Reserved and shall be ignored");
  (51, "Service Provider Display Information");
  (52, "Multimedia Messaging Service (MMS)");
  (53, "Extension 8");
  (54, "Call control on GPRS by USIM");
  (55, "MMS User Connectivity Parameters");
  (56, "Network's indication of alerting in the MS (NIA)");
  (57, "VGCS Group Identifier List (EFVGCS and EFVGCSS)");
  (58, "VBS Group Identifier List (EFVBS and EFVBSS)");
  (59, "Pseudonym");
  (60, "User Controlled PLMN selector for I-WLAN access");
  (61, "Operator Controlled PLMN selector for I-WLAN access");
  (62, "User controlled WSID list");
  (63, "Operator controlled WSID list");
  (64, "VGCS security");
  (65, "VBS security");
  (66, "WLAN Reauthentication Identity");
  (67, "Multimedia Messages Storage");
  (68, "Generic Bootstrapping Architecture (GBA)");
  (69, "MBMS security");
  (70, "Data download via USSD and USSD application mode");
  (71, "Equivalent HPLMN");
  (72, "Additional TERMINAL PROFILE after UICC activation");
  (73, "Equivalent HPLMN Presentation Indication");
  (74, "Last RPLMN Selection Indication");
  (75, "OMA BCAST Smart Card Profile");
  (76, "GBA-based Local Key Establishment Mechanism");
  (77, "Terminal Applications");
  (78, "Service Provider Name Icon");
  (79, "PLMN Network Name Icon");
  (80, "Connectivity Parameters for USIM IP connections");
  (81, "Home I-WLAN Specific Identifier List");
  (82, "I-WLAN Equivalent HPLMN Presentation Indication");
  (83, "I-WLAN HPLMN Priority Indication");
  (84, "I-WLAN Last Registered PLMN");
  (85, "EPS Mobility Management Information");
  (86, "Allowed CSG Lists and corresponding indications");
  (87, "Call control on EPS PDN connection by USIM");
  (88, "HPLMN Direct Access");
  (89, "eCall Data");
  (90, "Operator CSG Lists and corresponding indications");
  (91, "Support for SM-over-IP");
  (92, "Support of CSG Display Control");
  (93, "Communication Control for IMS by USIM");
  (94, "Extended Terminal Applications");
  (95, "Support of UICC access to IMS");
  (96, "Non-Access Stratum configuration by USIM");
  (97, "PWS configuration by USIM");
  (98, "RFU");
  (99, "URI support by UICC");
  (100, "Extended EARFCN support");
  (101, "ProSe");
  (102, "USAT Application Pairing");
  (103, "Media Type support");
  (104, "IMS call disconnection cause");
  (105, "URI support for MO SHORT MESSAGE CONTROL");
  (106, "ePDG configuration Information support");
  (107, "ePDG configuration Information configured");
  (108, "ACDC support");
  (109, "MCPTT");
  (110, "ePDG configuration Information for Emergency Service support");
  (111, "ePDG configuration Information for Emergency Service configured")
]%Z.

(** ** The start of the shell: the applications of the card

    The part of the main block of [pySim-shell.py] that reads the AIDs
    of the card, prints them and registers the applications it knows. *)

(** [pat in s] for two strings: [pat] occurs somewhere in [s]. *)
Fixpoint contains (pat s : string) : bool :=
  String.prefix pat s ||
  match s with
  | EmptyString => false
  | String _ s' => contains pat s'
  end.

(** The application nodes of [pySim.ts_31_102] and [pySim.ts_31_103]
    that the main block creates. *)
Inductive application : Type :=
  | ADF_USIM
  | ADF_ISIM.

Section Startup.

Context {RS : Type} `{RuntimeState RS}.

(** [rs.mf.add_application], a method of [pySim.filesystem]. *)
Variable add_application : application -> RS -> (exn + unit) * RS.

(** The body of the loop [for a in aids]. *)
Definition register_aid (a : string) : Cmd RS unit :=
  if contains "a0000000871002" a then
    poutput (" USIM: " +:+ a) ;;
    call (add_application ADF_USIM)
  else if contains "a0000000871004" a then
    poutput (" ISIM: " +:+ a) ;;
    call (add_application ADF_ISIM)
  else
    poutput (" unknown application: " +:+ a).

(** The statement [if aids: ... else: ...] of the main block; [aids] is
    what [card.read_aids()] returned, [None] or a list.  The test is
    Python truth: it fails on [None] and on the empty list. *)
Definition register_applications (aids : option (list string)) : Cmd RS unit :=
  match aids with
  | Some (a :: rest) =>
      poutput "AIDs on card:" ;;
      for_each (a :: rest) register_aid
  | _ => poutput "error: could not determine card applications"
  end.

End Startup.

(** The application an AID stands for, if the main block knows it. *)
Definition application_of (a : string) : option application :=
  if contains "a0000000871002" a then Some ADF_USIM
  else if contains "a0000000871004" a then Some ADF_ISIM
  else None.

(** The line the main block prints for an AID. *)
Definition aid_line (a : string) : string :=
  match application_of a with
  | Some ADF_USIM => " USIM: " +:+ a
  | Some ADF_ISIM => " ISIM: " +:+ a
  | None => " unknown application: " +:+ a
  end.

(** ** Runtime states used as examples *)

(** A runtime state that gives the same answers whatever it is asked. *)
Definition fixed_answers (selected : exn + fcp_dec) (path : list string)
    (data : exn + string) : RuntimeState unit :=
  Build_RuntimeState unit
    (fun _ st => (selected, st))
    (fun _ _ => path)
    (fun _ _ => [])
    (fun st => (data, st))
    (fun _ st => (data, st)).

(** A registry of applications that refuses nothing: the applications
    added so far, latest first. *)
Definition add_to (k : application) (registry : list application)
  : (exn + unit) * list application :=
  (inr tt, k :: registry).

(** A card whose registered DF.GSM is absent, between two files of the MF. *)
Definition bare_card : FileNode :=
  directory MF "3F00" "MF"
    [ ef "2FE2" "EF.ICCID" (Transparent (inr "98104300000000000000"));
      Node (mk_attrs DF "7F20" (Some "DF.GSM")
                     (Some "SW match failed! Expected 9000 and got 6a82.") []) [];
      ef "2F05" "EF.PL" (Transparent (inr "ffff")) ].

(** An action that fails on one name and notes the others. *)
Definition note_but (bad : string) (f : string) : Cmd state unit :=
  if String.eqb f bad then lift_result (inl "refused") else poutput f.

(** A card whose second record of EF.ADN cannot be read. *)
Definition worn_card : FileNode :=
  directory MF "3F00" "MF"
    [ directory DF "7F10" "DF.TELECOM"
        [ ef "6F3A" "EF.ADN"
             (LinearFixed [inr "ffff";
                           inl "SW match failed! Expected 9000 and got 6581.";
                           inr "0a0b"]) ] ].

(** A card that holds under DF.TELECOM a file the tree does not know:
    a transparent EF with the file identifier 6F3B. *)
Definition partly_known_card : FileNode :=
  directory MF "3F00" "MF"
    [ Node (mk_attrs DF "7F10" (Some "DF.TELECOM") None
                     [CardFile "6F3B" (EF (Transparent (inr "1234"))) []])
           [ ef "6F3A" "EF.ADN" (LinearFixed [inr "ffff"]) ] ].

(** The state after the selects of [paths], one after the other. *)
Definition after_selects (paths : list string) (st : state) : state :=
  fold_left (fun st' p => snd (select p st')) paths st.

(** A card with an application and a directory inside it. *)
Definition uicc_card : FileNode :=
  directory MF "3F00" "MF"
    [ ef "2F00" "EF.DIR" (LinearFixed [inr "61104f07a0000000871002"]);
      directory ADF "7FF0" "ADF.USIM"
        [ ef "6F07" "EF.IMSI" (Transparent (inr "082943051234567890"));
          directory DF "5F3A" "DF.PHONEBOOK"
            [ ef "4F3A" "EF.ADN" (LinearFixed [inr "ffff"]) ];
          ef "6F38" "EF.UST" (Transparent (inr "9e")) ];
      directory DF "7F20" "DF.GSM"
        [ ef "6F07" "EF.IMSI" (Transparent (inr "082943051234567890")) ] ].

(** The shell on the card with readable files, with DF.TELECOM selected. *)
Definition shell_in_sim_telecom : PysimApp state :=
  mk_app (after_selects ["DF.TELECOM"] (mk_state sim_card [] []))
         false "pySIM-shell (MF/DF.TELECOM)> " [].

(** A card with a cyclic file of eleven records. *)
Definition log_card : FileNode :=
  directory MF "3F00" "MF"
    [ ef "2F05" "EF.LOG"
         (Cyclic [inr "0b"; inr "0a"; inr "09"; inr "08"; inr "07"; inr "06";
                  inr "05"; inr "04"; inr "03"; inr "02"; inr "01"]) ].

(** * Proofs *)

(** ** Properties of the shell, for every runtime state *)

Section ShellFacts.

Context {RS : Type} `{RuntimeState RS}.

Implicit Types (app : PysimApp RS) (st : RS).

(** *** Reduction of commands *)

Lemma bind_return {A B} (c : Cmd RS A) (k : A -> Cmd RS B) app a app' :
  c app = (Return a, app') -> bind c k app = k a app'.
Proof. unfold bind. intros ->. reflexivity. Qed.

Lemma bind_raise {A B} (c : Cmd RS A) (k : A -> Cmd RS B) app e app' :
  c app = (Raise e, app') -> bind c k app = (Raise e, app').
Proof. unfold bind. intros ->. reflexivity. Qed.

Lemma call_ok {A} (op : RS -> (exn + A) * RS) app a st' :
  op (rs app) = (inr a, st') ->
  call op app = (Return a, mk_app st' (numeric_path app) (prompt app) (stdout app)).
Proof. unfold call. intros ->. reflexivity. Qed.

Lemma call_raise {A} (op : RS -> (exn + A) * RS) app e st' :
  op (rs app) = (inl e, st') ->
  call op app = (Raise e, mk_app st' (numeric_path app) (prompt app) (stdout app)).
Proof. unfold call. intros ->. reflexivity. Qed.

(** A loop that only prints. *)
Lemma for_each_poutput {A} (fmt : A -> string) (l : list A) app :
  for_each l (fun x => poutput (fmt x)) app
  = (Return tt, mk_app (rs app) (numeric_path app) (prompt app)
                       (stdout app ++ map fmt l)).
Proof.
  revert app. induction l as [|x l IH]; intros app; simpl.
  - unfold ret. rewrite app_nil_r. destruct app; reflexivity.
  - unfold bind at 1. unfold poutput at 1. rewrite IH. simpl.
    rewrite <- app_assoc. reflexivity.
Qed.

Lemma bind_ask {A B} (q : RS -> A) (k : A -> Cmd RS B) app :
  bind (ask q) k app = k (q (rs app)) app.
Proof. reflexivity. Qed.

Lemma bind_poutput {B} line (k : unit -> Cmd RS B) app :
  bind (poutput line) k app
  = k tt (mk_app (rs app) (numeric_path app) (prompt app) (stdout app ++ [line])).
Proof. reflexivity. Qed.

Lemma bind_ret {A B} (a : A) (k : A -> Cmd RS B) app : bind (ret a) k app = k a app.
Proof. reflexivity. Qed.

Lemma bind_lift_ok {A B} (r : exn + A) (k : A -> Cmd RS B) app a :
  r = inr a -> bind (lift_result r) k app = k a app.
Proof. intros ->. reflexivity. Qed.

Lemma bind_call_ok {A B} (op : RS -> (exn + A) * RS) (k : A -> Cmd RS B)
    st np pr out a st' :
  op st = (inr a, st') ->
  bind (call op) k (mk_app st np pr out) = k a (mk_app st' np pr out).
Proof. intros Hop. apply bind_return, call_ok, Hop. Qed.

Lemma bind_call_raise {A B} (op : RS -> (exn + A) * RS) (k : A -> Cmd RS B)
    st np pr out e st' :
  op st = (inl e, st') ->
  bind (call op) k (mk_app st np pr out) = (Raise e, mk_app st' np pr out).
Proof. intros Hop. apply bind_raise, call_raise, Hop. Qed.

Lemma bind_for_each_poutput {A B} (fmt : A -> string) (l : list A)
    (k : unit -> Cmd RS B) app :
  bind (for_each l (fun x => poutput (fmt x))) k app
  = k tt (mk_app (rs app) (numeric_path app) (prompt app) (stdout app ++ map fmt l)).
Proof. apply bind_return, for_each_poutput. Qed.

(** *** The reads of a record file *)

Lemma read_records_length indices : forall st hexes st',
  read_records indices st = (inr hexes, st') -> length hexes = length indices.
Proof.
  induction indices as [|r rest IH]; simpl; intros st hexes st' Hrun.
  - injection Hrun as <- _. reflexivity.
  - destruct (read_record r st) as [[e|hex] st1]; [discriminate|].
    destruct (read_records rest st1) as [[e|hs] st2] eqn:Hrest; [discriminate|].
    injection Hrun as <- _. simpl. f_equal. eapply IH, Hrest.
Qed.

Lemma for_each_read_record indices : forall st np pr out hexes st',
  read_records indices st = (inr hexes, st') ->
  for_each indices (fun r =>
      bind (call (read_record r)) (fun result =>
        poutput ("update_record " +:+ str_int r +:+ " " +:+ result)))
    (mk_app st np pr out)
  = (Return tt, mk_app st' np pr (out ++ map record_line (combine indices hexes))).
Proof.
  induction indices as [|r rest IH]; simpl; intros st np pr out hexes st' Hrun.
  - injection Hrun as <- <-. unfold ret. rewrite app_nil_r. reflexivity.
  - destruct (read_record r st) as [[e|hex] st1] eqn:Hr; [discriminate|].
    destruct (read_records rest st1) as [[e|hs] st2] eqn:Hrest; [discriminate|].
    injection Hrun as <- <-.
    unfold bind at 1. rewrite (bind_call_ok _ _ _ _ _ _ _ _ Hr).
    unfold poutput at 1. cbn [rs numeric_path prompt stdout].
    rewrite (IH _ _ _ _ hs st2) by exact Hrest. cbn [map combine].
    rewrite <- app_assoc. reflexivity.
Qed.

(** *** One entry of the export *)

Lemma export_run filename app fcp fd s st1 name fid lines st2 r st3 :
  select filename (rs app) = (inr fcp, st1) ->
  fcp_file_descriptor fcp = Some fd ->
  structure fd = Some s ->
  last_item (fully_qualified_path true st1) = inr name ->
  last_item (fully_qualified_path false st1) = inr fid ->
  dumped s fd st1 lines st2 ->
  select ".." st2 = (r, st3) ->
  export filename app
  = (Return tt,
     mk_app st3 (numeric_path app) (prompt app)
       (stdout app
        ++ ["# directory:" +:+ join "/" (fully_qualified_path true (rs app))
              +:+ " (" +:+ join "/" (fully_qualified_path false (rs app)) +:+ ")";
            "# file:" +:+ name +:+ " (" +:+ fid +:+ ")";
            "# structure: " +:+ s]
        ++ map (fun segment => "select " +:+ segment) (fully_qualified_path true st1)
        ++ lines ++ closing filename r ++ ["#"])).
Proof.
  intros Hsel Hfd Hs Hname Hfid Hdump Hup.
  destruct app as [st0 np pr out]. cbn [rs numeric_path prompt stdout] in *.
  unfold export.
  rewrite !bind_ask, bind_poutput. cbn [rs numeric_path prompt stdout].
  unfold bind at 1. unfold try_except, export_try.
  rewrite (bind_call_ok _ _ _ _ _ _ _ _ Hsel). cbn [rs numeric_path prompt stdout].
  rewrite !bind_ask. cbn [rs numeric_path prompt stdout].
  rewrite (bind_lift_ok _ _ _ _ Hname), (bind_lift_ok _ _ _ _ Hfid), bind_poutput.
  rewrite Hfd. cbn [getitem]. rewrite (bind_lift_ok _ _ _ _ eq_refl).
  rewrite Hs. cbn [getitem]. rewrite (bind_lift_ok _ _ _ _ eq_refl), bind_poutput.
  rewrite bind_for_each_poutput. cbn [rs numeric_path prompt stdout].
  assert (Hclose : forall out',
    bind (call (select "..")) (fun _ => ret tt) (mk_app st2 np pr out')
    = (match r with inl e => Raise e | inr _ => Return tt end, mk_app st3 np pr out')).
  { intros out'. destruct r as [e|fcp'].
    - apply (bind_call_raise _ _ _ _ _ _ _ _ Hup).
    - rewrite (bind_call_ok _ _ _ _ _ _ _ _ Hup). reflexivity. }
  inversion Hdump as [fd' st hex st' Hread | s' fd' st n hexes st' Hkind Hn Hread
                     | s' fd' st Hnt Hnl Hnc]; subst.
  - cbn [String.eqb Ascii.eqb Bool.eqb orb].
    unfold bind at 1. rewrite (bind_call_ok _ _ _ _ _ _ _ _ Hread).
    unfold poutput at 1. cbn [rs numeric_path prompt stdout].
    rewrite bind_ret, Hclose.
    destruct r; cbn; unfold poutput; cbn; repeat rewrite <- app_assoc; reflexivity.
  - assert (Hnot : String.eqb s "transparent" = false)
      by (destruct Hkind; subst; reflexivity).
    assert (Hrec : String.eqb s "cyclic" || String.eqb s "linear_fixed" = true)
      by (destruct Hkind; subst; reflexivity).
    rewrite Hnot, Hrec, bind_ret, Hn. cbn [getitem].
    unfold bind at 1. rewrite (bind_lift_ok _ _ _ _ eq_refl).
    rewrite (for_each_read_record _ _ _ _ _ _ _ Hread).
    rewrite Hclose.
    destruct r; cbn; unfold poutput; cbn; repeat rewrite <- app_assoc; reflexivity.
  - apply String.eqb_neq in Hnt, Hnl, Hnc. rewrite Hnt, Hnl, Hnc. cbn [orb].
    rewrite !bind_ret, Hclose.
    destruct r; cbn; unfold poutput; cbn; repeat rewrite <- app_assoc; reflexivity.
Qed.

(** *** Failures inside [export] *)

(** X3.  A SELECT of the file that raises: [export] writes the
    directory line, the error as a comment and the line [#], makes no
    read, and returns with the runtime state the SELECT left. *)
Lemma export_select_failure filename app e st1 :
  select filename (rs app) = (inl e, st1) ->
  export filename app
  = (Return tt,
     mk_app st1 (numeric_path app) (prompt app)
       (stdout app
        ++ ["# directory:" +:+ join "/" (fully_qualified_path true (rs app))
              +:+ " (" +:+ join "/" (fully_qualified_path false (rs app)) +:+ ")";
            "# bad file:" +:+ filename +:+ ", " +:+ e;
            "#"])).
Proof.
  intros Hsel. destruct app as [st0 np pr out].
  cbn [rs numeric_path prompt stdout] in *.
  unfold export. rewrite !bind_ask, bind_poutput. cbn [rs numeric_path prompt stdout].
  unfold bind at 1. unfold try_except, export_try.
  rewrite (bind_call_raise _ _ _ _ _ _ _ _ Hsel).
  unfold poutput. cbn [rs numeric_path prompt stdout].
  rewrite <- !app_assoc. reflexivity.
Qed.

(** A read of the body that raises: the error is written after the
    [select] lines, and [export] returns with the state the read left;
    the [select("..")] at the end of the [try] block is not run. *)
Lemma export_read_failure filename app fcp fd st1 name fid e st2 :
  select filename (rs app) = (inr fcp, st1) ->
  fcp_file_descriptor fcp = Some fd ->
  structure fd = Some "transparent" ->
  last_item (fully_qualified_path true st1) = inr name ->
  last_item (fully_qualified_path false st1) = inr fid ->
  read_binary st1 = (inl e, st2) ->
  export filename app
  = (Return tt,
     mk_app st2 (numeric_path app) (prompt app)
       (stdout app
        ++ ["# directory:" +:+ join "/" (fully_qualified_path true (rs app))
              +:+ " (" +:+ join "/" (fully_qualified_path false (rs app)) +:+ ")";
            "# file:" +:+ name +:+ " (" +:+ fid +:+ ")";
            "# structure: transparent"]
        ++ map (fun segment => "select " +:+ segment) (fully_qualified_path true st1)
        ++ ["# bad file:" +:+ filename +:+ ", " +:+ e; "#"])).
Proof.
  intros Hsel Hfd Hs Hname Hfid Hread. destruct app as [st0 np pr out].
  cbn [rs numeric_path prompt stdout] in *.
  unfold export. rewrite !bind_ask, bind_poutput. cbn [rs numeric_path prompt stdout].
  unfold bind at 1. unfold try_except, export_try.
  rewrite (bind_call_ok _ _ _ _ _ _ _ _ Hsel). cbn [rs numeric_path prompt stdout].
  rewrite !bind_ask. cbn [rs numeric_path prompt stdout].
  rewrite (bind_lift_ok _ _ _ _ Hname), (bind_lift_ok _ _ _ _ Hfid), bind_poutput.
  rewrite Hfd. cbn [getitem]. rewrite (bind_lift_ok _ _ _ _ eq_refl).
  rewrite Hs. cbn [getitem]. rewrite (bind_lift_ok _ _ _ _ eq_refl), bind_poutput.
  rewrite bind_for_each_poutput. cbn [rs numeric_path prompt stdout].
  cbn [String.eqb Ascii.eqb Bool.eqb].
  unfold bind at 1. unfold bind at 1.
  unfold call at 1. cbn [rs numeric_path prompt stdout]. rewrite Hread.
  unfold poutput. cbn [rs numeric_path prompt stdout].
  rewrite <- !app_assoc. reflexivity.
Qed.

(** *** Commands that come back and only add lines *)

Lemma prints_ret {A} P (a : A) : prints (RS:=RS) P (ret a).
Proof.
  intros app. cbn. repeat split; try discriminate.
  exists []. rewrite app_nil_r. auto.
Qed.

Lemma prints_bind {A B} P (c : Cmd RS A) (k : A -> Cmd RS B) :
  prints (RS:=RS) P c -> (forall a, prints (RS:=RS) P (k a)) -> prints (RS:=RS) P (bind c k).
Proof.
  intros Hc Hk app. unfold bind.
  destruct (Hc app) as (Hf & Hn & Hp & l1 & Hl1 & HP1).
  destruct (c app) as [[a|e|] app1]; cbn in *.
  - destruct (Hk a app1) as (Hf2 & Hn2 & Hp2 & l2 & Hl2 & HP2).
    repeat split; try congruence.
    exists (l1 ++ l2). rewrite Hl2, Hl1, app_assoc. split; [reflexivity|].
    apply Forall_app; auto.
  - repeat split; try congruence. eauto.
  - congruence.
Qed.

Lemma prints_poutput P line : P line -> prints (RS:=RS) P (poutput line).
Proof.
  intros HP app. cbn. repeat split; try discriminate.
  exists [line]. auto.
Qed.

Lemma prints_call {A} P (op : RS -> (exn + A) * RS) : prints (RS:=RS) P (call op).
Proof.
  intros app. unfold call. destruct (op (rs app)) as [[e|a] st']; cbn;
    (repeat split; try discriminate; exists []; rewrite app_nil_r; auto).
Qed.

Lemma prints_ask {A} P (q : RS -> A) : prints (RS:=RS) P (ask q).
Proof.
  intros app. cbn. repeat split; try discriminate.
  exists []. rewrite app_nil_r. auto.
Qed.

Lemma prints_lift_result {A} P (r : exn + A) : prints (RS:=RS) P (lift_result r).
Proof.
  intros app. unfold lift_result. destruct r; cbn;
    (repeat split; try discriminate; exists []; rewrite app_nil_r; auto).
Qed.

Lemma prints_for_each {A} P (l : list A) (body : A -> Cmd RS unit) :
  (forall x, prints (RS:=RS) P (body x)) -> prints (RS:=RS) P (for_each l body).
Proof.
  intros Hb. induction l as [|x l IH]; simpl.
  - apply prints_ret.
  - apply prints_bind; auto.
Qed.

Lemma prints_try_except {A} P (body : Cmd RS A) (handler : exn -> Cmd RS A) :
  prints (RS:=RS) P body -> (forall e, prints (RS:=RS) P (handler e)) ->
  prints (RS:=RS) P (try_except body handler).
Proof.
  intros Hc Hh app. unfold try_except.
  destruct (Hc app) as (Hf & Hn & Hp & l1 & Hl1 & HP1).
  destruct (body app) as [[a|e|] app1]; cbn in *.
  - repeat split; try congruence. eauto.
  - destruct (Hh e app1) as (Hf2 & Hn2 & Hp2 & l2 & Hl2 & HP2).
    repeat split; try congruence.
    exists (l1 ++ l2). rewrite Hl2, Hl1, app_assoc. split; [reflexivity|].
    apply Forall_app; auto.
  - congruence.
Qed.

(** *** The lines of the export script *)

Lemma comment_line rest : script_line ("# " +:+ rest).
Proof. left. exists (" " +:+ rest). reflexivity. Qed.

(** Takes a command apart, down to the lines it prints. *)
Ltac prints_steps :=
  repeat first
    [ apply prints_bind; [| intros ?]
    | apply prints_call | apply prints_ask | apply prints_lift_result
    | apply prints_ret
    | apply prints_for_each; intros ?
    | apply prints_try_except; [| intros ?]
    | apply prints_poutput
    | match goal with |- prints _ (if ?b then _ else _) => destruct b end ].

(** Recognises a line of the script by its first token. *)
Ltac script_line_shape :=
  first [ apply comment_line
        | left; exists ""; reflexivity
        | right; left; eexists; reflexivity
        | right; right; left; eexists; reflexivity
        | right; right; right; do 2 eexists; reflexivity ].

Lemma prints_export_try filename : prints (RS:=RS) script_line (export_try filename).
Proof. unfold export_try. prints_steps; script_line_shape. Qed.

Lemma prints_export filename : prints (RS:=RS) script_line (export filename).
Proof. unfold export, export_try. prints_steps; script_line_shape. Qed.

(** [export] comes back to its caller without an exception, whatever
    the card answers. *)
Lemma export_returns filename app : fst (export filename app) = Return tt.
Proof.
  unfold export, bind, ask, poutput at 1. cbn.
  set (app1 := mk_app _ _ _ _).
  unfold try_except.
  destruct (prints_export_try filename app1) as (Hf & _).
  destruct (export_try filename app1) as [[[]|e|] app2]; cbn in *;
    try reflexivity; congruence.
Qed.

(** After the export of a name that does not begin with DF or ADF, the
    loop of the walk goes on with the names that are left, whatever
    happened to the file. *)
Lemma walk_goes_on_after_export (recurse : Cmd RS unit) indent f rest app :
  is_df_name f = false ->
  for_each (f :: rest) (walk_file recurse indent (Some export)) app
  = for_each rest (walk_file recurse indent (Some export)) (snd (export f app)).
Proof.
  intros Hf. cbn [for_each]. unfold bind at 1. unfold walk_file at 1.
  rewrite bind_ret, Hf. pose proof (export_returns f app) as Hret.
  destruct (export f app) as [[[]|e|] app1]; cbn in Hret |- *;
    [reflexivity | discriminate | discriminate].
Qed.

(** A SELECT of a directory that raises inside [walk] is not caught: the
    walk ends with the exception. *)
Lemma walk_raises_when_directory_select_fails fuel indent action app f rest e st1 :
  get_selectable_names ["NAMES"; "APPS"] (rs app) = f :: rest ->
  is_df_name f = true ->
  select f (rs app) = (inl e, st1) ->
  fst (walk (S fuel) indent action app) = Raise e.
Proof.
  intros Hnames Hf Hsel. destruct app as [st0 np pr out].
  cbn [rs] in *. cbn [walk]. rewrite bind_ask. cbn [rs]. rewrite Hnames.
  cbn [for_each]. unfold bind at 1. unfold walk_file. rewrite Hf.
  destruct action as [act|].
  - rewrite bind_ret, (bind_call_raise _ _ _ _ _ _ _ _ Hsel). reflexivity.
  - rewrite bind_poutput. cbn [rs numeric_path prompt stdout].
    rewrite (bind_call_raise _ _ _ _ _ _ _ _ Hsel). reflexivity.
Qed.

(** C5.  Every line that [export] hands to [poutput] is a comment, that
    is, begins with the character [#], or is a command line of one of
    the three shapes [select <path-segment>], [update_binary <hex>] and
    [update_record <index> <hex>]. *)
Theorem export_lines_are_script_lines :
  forall (filename : string) (app : PysimApp RS),
  exists lines : list string,
    stdout (snd (export filename app)) = stdout app ++ lines /\
    Forall (fun line =>
      String.prefix "#" line = true \/
      (exists segment, line = "select " +:+ segment) \/
      (exists hex, line = "update_binary " +:+ hex) \/
      (exists (index : Z) hex,
          line = "update_record " +:+ str_int index +:+ " " +:+ hex)) lines.
Proof.
  intros filename app.
  destruct (prints_export filename app) as (_ & _ & _ & lines & Hout & Hall).
  exists lines. split; [exact Hout|].
  eapply Forall_impl; [exact Hall|].
  intros line [[rest ->] | Hcmd]; [left | right; exact Hcmd].
  simpl. destruct rest; reflexivity.
Qed.

(** *** One entry of the export, line by line *)

Lemma record_lines_from (hexes : list string) : forall a,
  map record_line
      (combine (map (fun i => (1 + Z.of_nat i)%Z) (seq a (length hexes))) hexes)
  = map (fun i => "update_record " +:+ str_int (Z.of_nat i) +:+ " "
                  +:+ nth (i - S a) hexes "")
        (seq (S a) (length hexes)).
Proof.
  induction hexes as [|hex hexes IH]; intros a; [reflexivity|].
  cbn [length seq map combine]. f_equal.
  - unfold record_line. cbn [fst snd].
    replace (1 + Z.of_nat a)%Z with (Z.of_nat (S a)) by lia.
    rewrite Nat.sub_diag. reflexivity.
  - rewrite IH. apply map_ext_in. intros i Hi. apply in_seq in Hi.
    replace (i - S a) with (S (i - S (S a))) by lia. reflexivity.
Qed.

Lemma record_lines_by_index (n : Z) (hexes : list string) :
  length hexes = Z.to_nat n ->
  map record_line (combine (range 1 (n + 1)) hexes)
  = map (fun i => "update_record " +:+ str_int (Z.of_nat i) +:+ " "
                  +:+ nth (i - 1) hexes "")
        (seq 1 (Z.to_nat n)).
Proof.
  intros Hlen. unfold range.
  replace (Z.to_nat (n + 1 - 1)) with (length hexes) by (rewrite Hlen; f_equal; lia).
  rewrite record_lines_from, Hlen. reflexivity.
Qed.

Lemma length_range (lo hi : Z) : length (range lo hi) = Z.to_nat (hi - lo).
Proof. unfold range. rewrite length_map, length_seq. reflexivity. Qed.

(** *** The index of a record line *)

Lemma digits_value_uint (d : Decimal.uint) : forall acc,
  digits_value acc (NilEmpty.string_of_uint d) = Some (uint_value acc d).
Proof.
  induction d; intros acc; cbn [NilEmpty.string_of_uint digits_value uint_value];
    try reflexivity;
    match goal with
    | |- context [digit_value ?c] =>
        change (digit_value c) with (Some (N_of_ascii c - 48)%N)
    end; cbn [N_of_ascii N_of_digits]; rewrite IHd; f_equal; f_equal; lia.
Qed.

Lemma uint_value_acc (d : Decimal.uint) : forall acc : positive,
  uint_value (Npos acc) d = Npos (Pos.of_uint_acc d acc).
Proof.
  induction d; intros acc; cbn [uint_value Pos.of_uint_acc]; try reflexivity;
    rewrite <- IHd; f_equal; lia.
Qed.

Lemma uint_value_of_uint (d : Decimal.uint) : uint_value 0 d = Pos.of_uint d.
Proof.
  induction d; cbn [uint_value Pos.of_uint]; try reflexivity;
    try (rewrite <- uint_value_acc; f_equal; lia).
  exact IHd.
Qed.

Lemma numeral_of_uint (d : Decimal.uint) (p : positive) :
  Decimal.unorm d = d -> Pos.of_uint d = Npos p ->
  decimal_numeral (NilEmpty.string_of_uint d) (Zpos p).
Proof.
  intros Hnorm Hval. split; [|split].
  - destruct d; discriminate.
  - destruct d as [|d|d|d|d|d|d|d|d|d|d]; try discriminate. intros _. exfalso.
    unfold Decimal.unorm in Hnorm. cbn [Decimal.nzhead] in Hnorm.
    pose proof (DecimalFacts.nzhead_nonzero d d) as Hnz.
    destruct (Decimal.nzhead d) eqn:Hh; try congruence.
    injection Hnorm as <-. cbn in Hval. discriminate.
  - rewrite digits_value_uint, uint_value_of_uint, Hval. reflexivity.
Qed.

(** ["%d" % z] is the decimal numeral of [z], for [z] that is not
    negative. *)
Lemma str_int_numeral (z : Z) : (0 <= z)%Z -> decimal_numeral (str_int z) z.
Proof.
  intros Hz. destruct z as [|p|p]; [| |lia].
  - repeat split; discriminate.
  - unfold str_int. cbn [Z.to_int NilZero.string_of_int].
    pose proof (DecimalPos.Unsigned.to_uint_nonnil p) as Hnil.
    assert (Hs : NilZero.string_of_uint (Pos.to_uint p)
                 = NilEmpty.string_of_uint (Pos.to_uint p)).
    { revert Hnil. destruct (Pos.to_uint p); [congruence | reflexivity..]. }
    rewrite Hs. apply numeral_of_uint.
    + rewrite <- (DecimalPos.Unsigned.to_of (Pos.to_uint p)),
        DecimalPos.Unsigned.of_to. reflexivity.
    + apply DecimalPos.Unsigned.of_to.
Qed.

(** C4.  For a file that selects and reads without error, [export]
    writes, in this order: the comment lines with the enclosing
    directory, with the name and the identifier of the file and with its
    decoded structure; one [select] line for every element of the named
    path of the file; then, for a transparent file, one [update_binary]
    line with the body, and for a linear fixed or cyclic file one
    [update_record] line for every index from 1 to the decoded record
    count, in ascending order, each with the index as its decimal
    numeral followed by the data of that record.  The entry ends with
    the line [#], after a comment if the closing [select("..")] was
    refused. *)
Theorem export_writes_entry_of_readable_file :
  forall (filename : string) (app : PysimApp RS) (fcp : fcp_dec)
         (fd : file_descriptor) (s : string) (st1 : RS) (name fid : string),
    select filename (rs app) = (inr fcp, st1) ->
    fcp_file_descriptor fcp = Some fd ->
    structure fd = Some s ->
    last_item (fully_qualified_path true st1) = inr name ->
    last_item (fully_qualified_path false st1) = inr fid ->
    let head :=
      ["# directory:" +:+ join "/" (fully_qualified_path true (rs app))
         +:+ " (" +:+ join "/" (fully_qualified_path false (rs app)) +:+ ")";
       "# file:" +:+ name +:+ " (" +:+ fid +:+ ")";
       "# structure: " +:+ s]
      ++ map (fun segment => "select " +:+ segment) (fully_qualified_path true st1) in
    (s = "transparent" ->
     forall hex st2,
       read_binary st1 = (inr hex, st2) ->
       stdout (snd (export filename app))
       = stdout app ++ head ++ ["update_binary " +:+ hex]
         ++ closing filename (fst (select ".." st2)) ++ ["#"])
    /\
    (s = "linear_fixed" \/ s = "cyclic" ->
     forall n hexes st2,
       num_of_rec fd = Some n ->
       read_records (range 1 (n + 1)) st1 = (inr hexes, st2) ->
       length hexes = Z.to_nat n /\
       stdout (snd (export filename app))
       = stdout app ++ head
         ++ map (fun i => "update_record " +:+ str_int (Z.of_nat i) +:+ " "
                          +:+ nth (i - 1) hexes "")
                (seq 1 (Z.to_nat n))
         ++ closing filename (fst (select ".." st2)) ++ ["#"] /\
       forall i, 1 <= i <= Z.to_nat n ->
         decimal_numeral (str_int (Z.of_nat i)) (Z.of_nat i)).
Proof.
  intros filename app fcp fd s st1 name fid Hsel Hfd Hs Hname Hfid head.
  split.
  - intros -> hex st2 Hread.
    destruct (select ".." st2) as [r st3] eqn:Hup.
    rewrite (export_run _ _ _ _ _ _ _ _ _ _ _ _ Hsel Hfd Hs Hname Hfid
               (dumped_transparent _ _ _ _ Hread) Hup).
    subst head. cbn [snd stdout fst]. rewrite <- !app_assoc. reflexivity.
  - intros Hkind n hexes st2 Hn Hread.
    assert (Hlen : length hexes = Z.to_nat n).
    { rewrite (read_records_length _ _ _ _ Hread), length_range. f_equal. lia. }
    split; [exact Hlen|]. split; [|intros i _; apply str_int_numeral; lia].
    destruct (select ".." st2) as [r st3] eqn:Hup.
    rewrite (export_run _ _ _ _ _ _ _ _ _ _ _ _ Hsel Hfd Hs Hname Hfid
               (dumped_records _ _ _ _ _ _ Hkind Hn Hread) Hup).
    subst head. cbn [snd stdout fst].
    rewrite (record_lines_by_index _ _ Hlen), <- !app_assoc. reflexivity.
Qed.

(** *** The prompt *)

(** C9.  After a select command that completed, and after a change of
    the [numeric_path] setting, the prompt is [pySIM-shell (] followed by
    the fully qualified path of the selected file joined with [/] and by
    [)> ]; the path is asked with names preferred when [numeric_path] is
    false and with file identifiers when it is true. *)
Theorem prompt_shows_selected_path :
  forall (json_dumps : fcp_dec -> string) (path : string) (new : bool)
         (app app' : PysimApp RS),
    (do_select json_dumps path app = (Return tt, app') ->
     numeric_path app' = numeric_path app /\
     prompt app'
     = "pySIM-shell ("
       +:+ join "/" (fully_qualified_path (negb (numeric_path app')) (rs app'))
       +:+ ")> ")
    /\
    (let app'' := snd (set_numeric_path new app) in
     fst (set_numeric_path new app) = Return tt /\
     numeric_path app'' = new /\
     rs app'' = rs app /\
     prompt app''
     = "pySIM-shell ("
       +:+ join "/" (fully_qualified_path (if new then false else true) (rs app''))
       +:+ ")> ").
Proof.
  intros json_dumps path new app app'. split.
  - unfold do_select, bind, call.
    destruct (select path (rs app)) as [[e|fcp] st']; [discriminate|].
    cbn. intros Hrun. injection Hrun as <-. cbn. auto.
  - cbn. destruct new; auto.
Qed.

(** *** Which names the walk hands to its action *)

Lemma preserves_bind {A B} P (c : Cmd RS A) (k : A -> Cmd RS B) :
  preserves P c -> (forall a, preserves P (k a)) -> preserves P (bind c k).
Proof.
  intros Hc Hk app HP. unfold bind. specialize (Hc app HP).
  destruct (c app) as [[a|e|] app1]; cbn in *; auto. apply Hk, Hc.
Qed.

Lemma preserves_ret {A} P (a : A) : preserves (RS:=RS) P (ret a).
Proof. intros app HP. exact HP. Qed.

Lemma preserves_ask {A} P (q : RS -> A) : preserves P (ask q).
Proof. intros app HP. exact HP. Qed.

Lemma preserves_for_each {A} P (l : list A) (body : A -> Cmd RS unit) :
  (forall x, preserves P (body x)) -> preserves P (for_each l body).
Proof.
  intros Hb. induction l as [|x l IH]; simpl.
  - apply preserves_ret.
  - apply preserves_bind; auto.
Qed.

Lemma preserves_walk P (act : string -> Cmd RS unit) :
  (forall name, preserves P (call (select name))) ->
  (forall f, is_df_name f = false -> preserves P (act f)) ->
  forall fuel indent, preserves P (walk fuel indent (Some act)).
Proof.
  intros Hsel Hact. induction fuel as [|fuel IH]; intros indent; simpl.
  - intros app HP. exact HP.
  - apply preserves_bind; [apply preserves_ask|]. intros files.
    apply preserves_for_each. intros f. unfold walk_file.
    apply preserves_bind; [apply preserves_ret|]. intros _.
    destruct (is_df_name f) eqn:Hf.
    + repeat (apply preserves_bind; [| intros ?]);
        auto using preserves_ret.
    + apply Hact, Hf.
Qed.

Lemma substring_prefix (p f : string) :
  String.eqb (substring 0 (String.length p) f) p = String.prefix p f.
Proof.
  destruct (String.prefix p f) eqn:Hp.
  - apply String.eqb_eq, prefix_correct, Hp.
  - apply String.eqb_neq. intros Heq. apply prefix_correct in Heq. congruence.
Qed.

Lemma is_df_name_prefix (f : string) :
  is_df_name f = String.prefix "DF" f || String.prefix "ADF" f.
Proof.
  unfold is_df_name.
  rewrite <- (substring_prefix "DF"), <- (substring_prefix "ADF"). reflexivity.
Qed.

End ShellFacts.

(** ** Properties of the card file system *)

Section CardFacts.

Lemma FileNode_ind_children (P : FileNode -> Prop) :
  (forall a cs, Forall P cs -> P (Node a cs)) -> forall n, P n.
Proof.
  intros Hnode. fix IH 1. intros [a cs]. apply Hnode.
  induction cs as [|c cs IHcs]; constructor; auto.
Qed.

(** The names the walk asks for are those of the named children. *)
Lemma walk_names (st : state) :
  fs_get_selectable_names ["NAMES"; "APPS"] st = names_of (children (cursor st)).
Proof.
  unfold fs_get_selectable_names, names_of. cbn [existsb String.eqb Ascii.eqb Bool.eqb orb andb].
  rewrite !app_nil_r. apply flat_map_ext. intros c.
  destruct (f_type (attrs_of c)); reflexivity.
Qed.

Lemma split_path_no_slash (f : string) :
  no_slash f = true -> f <> "" -> split_path f = [f].
Proof.
  induction f as [|c f IH]; intros Hns Hne; [congruence|].
  unfold no_slash in Hns. cbn [list_ascii_of_string forallb] in Hns.
  apply andb_prop in Hns as [Hc Hrest].
  cbn [split_path]. apply negb_true_iff in Hc. rewrite Hc.
  destruct f as [|c' f'].
  - reflexivity.
  - rewrite IH; [reflexivity | exact Hrest | discriminate].
Qed.

Lemma plain_name_parts (f : string) :
  plain_name f = true ->
  f <> "" /\ String.eqb f ".." = false /\ String.eqb f "." = false /\
  no_slash f = true /\ is_fid_token f = false.
Proof.
  unfold plain_name. intros Hp.
  repeat match type of Hp with _ && _ = true => apply andb_prop in Hp as [Hp ?] end.
  repeat match goal with H : negb _ = true |- _ => apply negb_true_iff in H end.
  repeat split; auto. intros ->. discriminate.
Qed.

Lemma path_elements_plain (f : string) :
  plain_name f = true -> path_elements f = [f].
Proof.
  intros Hp. destruct (plain_name_parts f Hp) as (Hne & _ & _ & Hns & _).
  unfold path_elements. rewrite split_path_no_slash by assumption.
  cbn [List.filter]. apply String.eqb_neq in Hne. rewrite Hne. reflexivity.
Qed.

Lemma is_absolute_plain (f : string) :
  plain_name f = true -> is_absolute f = false.
Proof.
  intros Hp. destruct (plain_name_parts f Hp) as (Hne & _ & _ & Hns & _).
  destruct f as [|c f]; [congruence|].
  unfold no_slash in Hns. cbn [list_ascii_of_string forallb] in Hns.
  apply andb_prop in Hns as [Hc _]. apply negb_true_iff in Hc.
  unfold is_absolute. cbn [String.prefix].
  destruct (ascii_dec "/" c) as [<-|]; [discriminate | reflexivity].
Qed.

Lemma named_spec (f : string) (c : FileNode) :
  named f c = true <-> name_of c = Some f.
Proof.
  unfold named. destruct (name_of c) as [s|]; [|split; discriminate].
  rewrite String.eqb_eq. split; congruence.
Qed.

(** Among siblings with names in order, a name finds its own node. *)
Lemma find_named (f : string) (c : FileNode) : forall pre post,
  names_ok (pre ++ c :: post) = true ->
  name_of c = Some f ->
  find (named f) (pre ++ c :: post) = Some c.
Proof.
  induction pre as [|e pre IH]; intros post Hok Hname.
  - cbn [app find]. rewrite (proj2 (named_spec f c) Hname). reflexivity.
  - cbn [app names_ok] in Hok. apply andb_prop in Hok as [He Hrest].
    cbn [app find]. destruct (named f e) eqn:Hfe; [|apply IH; assumption].
    exfalso. apply named_spec in Hfe. rewrite Hfe in He.
    apply andb_prop in He as [_ Hfresh]. apply negb_true_iff in Hfresh.
    assert (Hex : existsb (named f) (pre ++ c :: post) = true).
    { apply existsb_exists. exists c. split.
      - apply in_or_app. right. left. reflexivity.
      - apply named_spec, Hname. }
    congruence.
Qed.

Lemma names_ok_plain (c : FileNode) (f : string) : forall pre post,
  names_ok (pre ++ c :: post) = true -> name_of c = Some f -> plain_name f = true.
Proof.
  induction pre as [|e pre IH]; intros post Hok Hname; cbn [app names_ok] in Hok;
    apply andb_prop in Hok as [He Hrest].
  - rewrite Hname in He. apply andb_prop in He as [Hp _]. exact Hp.
  - eapply IH; eassumption.
Qed.

Lemma resolve_child_named a (c : FileNode) (f : string) pre post :
  names_ok (pre ++ c :: post) = true ->
  name_of c = Some f ->
  resolve_child (Node a (pre ++ c :: post)) f = Some c.
Proof.
  intros Hok Hname. unfold resolve_child.
  destruct (plain_name_parts f (names_ok_plain _ _ _ _ Hok Hname)) as (_ & _ & _ & _ & Hfid).
  rewrite Hfid. cbn [children]. apply (find_named f c pre post Hok Hname).
Qed.

(** SELECT of a child by its name, and of the parent. *)
Lemma select_child (n c : FileNode) (f : string) up reqs :
  resolve_child n f = Some c ->
  plain_name f = true ->
  accepted c = true ->
  select f (mk_state n up reqs)
  = (inr (decode_fcp c), mk_state c (n :: up) (reqs ++ [ReqSelect f])).
Proof.
  intros Hres Hp Hacc. change (select f) with (fs_select f). unfold fs_select.
  rewrite (is_absolute_plain f Hp), (path_elements_plain f Hp).
  destruct (plain_name_parts f Hp) as (_ & Hdd & Hd & _ & _).
  cbn [cursor ancestors requests resolve_elements resolve_element].
  rewrite Hdd, Hd, Hres. unfold accept, accepted in *.
  destruct (f_select_error (attrs_of c)); [discriminate | reflexivity].
Qed.

Lemma select_parent (n c : FileNode) up reqs :
  accepted n = true ->
  select ".." (mk_state c (n :: up) reqs)
  = (inr (decode_fcp n), mk_state n up (reqs ++ [ReqSelect ".."])).
Proof.
  intros Hacc. change (select "..") with (fs_select ".."). unfold fs_select. cbn. unfold accept, accepted in *.
  destruct (f_select_error (attrs_of n)); [discriminate | reflexivity].
Qed.

Lemma height_child a (c : FileNode) pre post fuel :
  height (Node a (pre ++ c :: post)) <= S fuel -> height c <= fuel.
Proof.
  cbn [height]. intros Hh. apply le_S_n in Hh.
  apply list_max_le in Hh. rewrite List.Forall_forall in Hh.
  apply Hh, in_map, in_or_app. right. left. reflexivity.
Qed.

Lemma walkable_child ok_file a (c : FileNode) pre post :
  walkable ok_file (Node a (pre ++ c :: post)) = true ->
  accepted (Node a (pre ++ c :: post)) = true /\
  names_ok (pre ++ c :: post) = true /\
  match name_of c with
  | None => True
  | Some f => if is_df_name f then walkable ok_file c = true else ok_file c = true
  end.
Proof.
  cbn [walkable]. intros Hw.
  apply andb_prop in Hw as [Hw Hall]. apply andb_prop in Hw as [Hacc Hok].
  repeat split; auto.
  rewrite forallb_forall in Hall.
  assert (Hin : In c (pre ++ c :: post)) by (apply in_or_app; right; left; reflexivity).
  specialize (Hall c Hin).
  destruct (name_of c) as [f|]; [|exact I].
  destruct (is_df_name f); exact Hall.
Qed.

Lemma walkable_accepted ok_file (n : FileNode) :
  walkable ok_file n = true -> accepted n = true.
Proof.
  destruct n as [a cs]. cbn [walkable]. intros Hw.
  apply andb_prop in Hw as [Hw _]. apply andb_prop in Hw as [Hacc _]. exact Hacc.
Qed.

End CardFacts.

(** ** The walk on a card *)

Section WalkOnCard.

Variable action : option (string -> Cmd state unit).
Variable ok_file : FileNode -> bool.
Variable act_out : FileNode -> list FileNode -> string -> FileNode -> list string.
Variable act_req : FileNode -> list FileNode -> string -> FileNode -> list request.

(** What is assumed of the action: on a file that satisfies [ok_file]
    it returns, leaves the cursor where it was, and writes and asks
    what [act_out] and [act_req] tell. *)
Hypothesis act_spec :
  forall act, action = Some act ->
  forall d up f c reqs np pr out,
    resolve_child d f = Some c ->
    plain_name f = true ->
    accepted d = true ->
    ok_file c = true ->
    act f (mk_app (mk_state d up reqs) np pr out)
    = (Return tt,
       mk_app (mk_state d up (reqs ++ act_req d up f c)) np pr
              (out ++ act_out d up f c)).

Local Abbreviation with_action :=
  (match action with Some _ => true | None => false end).

Lemma walk_on_card : forall n fuel indent up reqs np pr out,
  walkable ok_file n = true ->
  height n <= fuel ->
  walk fuel indent action (mk_app (mk_state n up reqs) np pr out)
  = (Return tt,
     mk_app (mk_state n up (reqs ++ walk_req with_action act_req up n)) np pr
            (out ++ walk_out with_action act_out indent up n)).
Proof.
  induction n as [a cs IH] using FileNode_ind_children.
  intros fuel indent up reqs np pr out Hw Hh.
  destruct fuel as [|fuel]; [cbn [height] in Hh; lia|].
  cbn [walk]. rewrite bind_ask. cbn [rs].
  change (get_selectable_names ["NAMES"; "APPS"] (mk_state (Node a cs) up reqs))
    with (fs_get_selectable_names ["NAMES"; "APPS"] (mk_state (Node a cs) up reqs)).
  rewrite walk_names. cbn [cursor children walk_req walk_out].
  set (R := fun c : FileNode =>
    match name_of c with
    | None => []
    | Some f =>
        if is_df_name f
        then ReqSelect f :: walk_req with_action act_req (Node a cs :: up) c
                            ++ [ReqSelect ".."]
        else if with_action then act_req (Node a cs) up f c else []
    end).
  set (O := fun c : FileNode =>
    match name_of c with
    | None => []
    | Some f =>
        (if with_action then [] else [str_repeat "  " indent +:+ f])
        ++ (if is_df_name f
            then walk_out with_action act_out (indent + 1) (Node a cs :: up) c
            else if with_action then act_out (Node a cs) up f c else [])
    end).
  assert (Hloop : forall post pre reqs' out',
    cs = pre ++ post ->
    for_each (names_of post)
             (walk_file (walk fuel (indent + 1) action) indent action)
             (mk_app (mk_state (Node a cs) up reqs') np pr out')
    = (Return tt,
       mk_app (mk_state (Node a cs) up (reqs' ++ flat_map R post)) np pr
              (out' ++ flat_map O post))).
  { induction post as [|c post IHpost]; intros pre reqs' out' Hcs.
    - cbn. rewrite !app_nil_r. reflexivity.
    - assert (Hrest := IHpost (pre ++ [c])).
      rewrite <- app_assoc in Hrest. cbn [app] in Hrest.
      cbn [flat_map]. unfold names_of. cbn [flat_map]. fold (names_of post).
      subst cs. destruct (walkable_child _ _ _ _ _ Hw) as (Hacc & Hok & Hc).
      unfold R at 1, O at 1.
      destruct (name_of c) as [f|] eqn:Hname.
      + pose proof (resolve_child_named a c f pre post Hok Hname) as Hres.
        pose proof (names_ok_plain c f pre post Hok Hname) as Hplain.
        cbn [app for_each].
        assert (Hfile : forall reqs1 out1,
          walk_file (walk fuel (indent + 1) action) indent action f
            (mk_app (mk_state (Node a (pre ++ c :: post)) up reqs1) np pr out1)
          = (Return tt,
             mk_app (mk_state (Node a (pre ++ c :: post)) up
                       (reqs1 ++
                        (if is_df_name f
                         then ReqSelect f
                              :: walk_req with_action act_req
                                   (Node a (pre ++ c :: post) :: up) c
                              ++ [ReqSelect ".."]
                         else if with_action
                              then act_req (Node a (pre ++ c :: post)) up f c
                              else []))) np pr
                    (out1 ++
                     (if with_action then [] else [str_repeat "  " indent +:+ f])
                     ++ (if is_df_name f
                         then walk_out with_action act_out (indent + 1)
                                (Node a (pre ++ c :: post) :: up) c
                         else if with_action
                              then act_out (Node a (pre ++ c :: post)) up f c
                              else [])))).
        { intros reqs1 out1. unfold walk_file.
          assert (Hdir : is_df_name f = true ->
            forall out2,
            (bind (call (select f)) (fun _ =>
               bind (walk fuel (indent + 1) action) (fun _ =>
                 bind (call (select "..")) (fun _ => ret tt))))
              (mk_app (mk_state (Node a (pre ++ c :: post)) up reqs1) np pr out2)
            = (Return tt,
               mk_app (mk_state (Node a (pre ++ c :: post)) up
                         (reqs1 ++ ReqSelect f
                            :: walk_req with_action act_req
                                 (Node a (pre ++ c :: post) :: up) c
                            ++ [ReqSelect ".."])) np pr
                      (out2 ++ walk_out with_action act_out (indent + 1)
                                 (Node a (pre ++ c :: post) :: up) c))).
          { intros Hdf out2. rewrite Hdf in Hc.
            rewrite (bind_call_ok (select f) _ _ _ _ _ _ _
                       (select_child _ c f up reqs1 Hres Hplain
                          (walkable_accepted _ _ Hc))).
            rewrite List.Forall_forall in IH.
            assert (Hin : In c (pre ++ c :: post))
              by (apply in_or_app; right; left; reflexivity).
            erewrite bind_return
              by (apply (IH c Hin); [exact Hc | eapply height_child, Hh]).
            rewrite (bind_call_ok (select "..") _ _ _ _ _ _ _
                       (select_parent _ c up _ Hacc)).
            unfold ret. rewrite <- !app_assoc. reflexivity. }
          destruct action as [act|] eqn:Hact.
          - rewrite bind_ret. cbn [app]. destruct (is_df_name f) eqn:Hdf.
            + apply Hdir. reflexivity.
            + apply (act_spec act eq_refl); assumption.
          - rewrite bind_poutput. cbn [rs numeric_path prompt stdout].
            destruct (is_df_name f) eqn:Hdf.
            + rewrite Hdir by reflexivity. rewrite <- !app_assoc. reflexivity.
            + unfold ret. rewrite !app_nil_r. reflexivity. }
        erewrite bind_return by apply Hfile.
        rewrite (Hrest _ _ eq_refl). rewrite <- !app_assoc. reflexivity.
      + cbn [app]. apply (Hrest _ _ eq_refl). }
  apply (Hloop cs [] reqs out eq_refl).
Qed.

End WalkOnCard.

(** ** The walk against the traversal of the tree *)

Section DepthFirst.

Lemma flat_map_ext_in {A B} (f g : A -> list B) (l : list A) :
  (forall x, In x l -> f x = g x) -> flat_map f l = flat_map g l.
Proof.
  induction l as [|x l IH]; intros Hfg; [reflexivity|].
  cbn [flat_map]. rewrite (Hfg x (or_introl eq_refl)), IH; [reflexivity|].
  intros y Hy. apply Hfg. right. exact Hy.
Qed.

Lemma flat_map_flat_map {A B C} (g : B -> list C) (h : A -> list B) (l : list A) :
  flat_map g (flat_map h l) = flat_map (fun x => flat_map g (h x)) l.
Proof.
  induction l as [|x l IH]; [reflexivity|].
  cbn [flat_map]. rewrite flat_map_app, IH. reflexivity.
Qed.

Lemma flat_map_singleton {A B} (g : A -> B) (l : list A) :
  flat_map (fun x => [g x]) l = map g l.
Proof.
  induction l as [|x l IH]; [reflexivity|]. cbn [flat_map map app]. rewrite IH. reflexivity.
Qed.

Lemma walk_req_no_action act_req : forall n up,
  walk_req false act_req up n = dfs_selects n.
Proof.
  induction n as [a cs IH] using FileNode_ind_children. intros up.
  cbn [walk_req dfs_selects]. apply flat_map_ext_in. intros c Hc.
  rewrite List.Forall_forall in IH.
  destruct (name_of c) as [f|]; [|reflexivity].
  destruct (is_df_name f); [|reflexivity]. rewrite (IH c Hc). reflexivity.
Qed.

Lemma walk_out_no_action act_out : forall n indent up,
  walk_out false act_out indent up n = tree_listing indent n.
Proof.
  induction n as [a cs IH] using FileNode_ind_children. intros indent up.
  cbn [walk_out tree_listing]. apply flat_map_ext_in. intros c Hc.
  rewrite List.Forall_forall in IH.
  destruct (name_of c) as [f|]; [|reflexivity].
  destruct (is_df_name f); [|reflexivity]. rewrite (IH c Hc). reflexivity.
Qed.

Lemma walk_req_quiet_action : forall n up,
  walk_req true (fun _ _ _ _ => []) up n = dfs_selects n.
Proof.
  induction n as [a cs IH] using FileNode_ind_children. intros up.
  cbn [walk_req dfs_selects]. apply flat_map_ext_in. intros c Hc.
  rewrite List.Forall_forall in IH.
  destruct (name_of c) as [f|]; [|reflexivity].
  destruct (is_df_name f); [|reflexivity]. rewrite (IH c Hc). reflexivity.
Qed.

Lemma walk_out_printer (lines_of : string -> list string) : forall n indent up,
  walk_out true (fun _ _ f _ => lines_of f) indent up n
  = flat_map lines_of (dfs_files n).
Proof.
  induction n as [a cs IH] using FileNode_ind_children. intros indent up.
  cbn [walk_out dfs_files]. rewrite flat_map_flat_map.
  apply flat_map_ext_in. intros c Hc.
  rewrite List.Forall_forall in IH.
  destruct (name_of c) as [f|]; [|reflexivity].
  cbn [app]. destruct (is_df_name f).
  - apply (IH c Hc).
  - cbn [flat_map]. rewrite app_nil_r. reflexivity.
Qed.

(** A walk with an action that only prints: the SELECTs are those of
    the depth-first traversal, and the action is run on the files in
    the order the traversal meets them. *)
Lemma walk_with_printer (lines_of : string -> list string)
    (act : string -> Cmd state unit) :
  (forall f app,
     act f app
     = (Return tt,
        mk_app (rs app) (numeric_path app) (prompt app) (stdout app ++ lines_of f))) ->
  forall n fuel indent up reqs np pr out,
    walkable (fun _ => true) n = true ->
    height n <= fuel ->
    walk fuel indent (Some act) (mk_app (mk_state n up reqs) np pr out)
    = (Return tt,
       mk_app (mk_state n up (reqs ++ dfs_selects n)) np pr
              (out ++ flat_map lines_of (dfs_files n))).
Proof.
  intros Hact n fuel indent up reqs np pr out Hw Hh.
  rewrite (walk_on_card (Some act) (fun _ => true)
             (fun _ _ f _ => lines_of f) (fun _ _ _ _ => [])).
  - rewrite walk_req_quiet_action, walk_out_printer. reflexivity.
  - intros act' Hact' d up' f c reqs' np' pr' out' _ _ _ _.
    injection Hact' as <-. rewrite Hact. cbn [rs numeric_path prompt stdout].
    rewrite app_nil_r. reflexivity.
  - exact Hw.
  - exact Hh.
Qed.

Lemma forallb_ext_in {A} (f g : A -> bool) (l : list A) :
  (forall x, In x l -> f x = g x) -> forallb f l = forallb g l.
Proof.
  induction l as [|x l IH]; intros Hfg; [reflexivity|].
  cbn [forallb]. rewrite (Hfg x (or_introl eq_refl)), IH; [reflexivity|].
  intros y Hy. apply Hfg. right. exact Hy.
Qed.

(** The traversal told with the letters of the names is the one [walk]
    makes with its own test. *)
Lemma directories_selectable_walkable : forall n,
  directories_selectable n = walkable (fun _ => true) n.
Proof.
  induction n as [a cs IH] using FileNode_ind_children.
  cbn [directories_selectable walkable]. f_equal.
  rewrite List.Forall_forall in IH. apply forallb_ext_in. intros c Hc.
  destruct (name_of c) as [f|]; [|reflexivity].
  rewrite is_df_name_prefix. unfold df_or_adf_prefix.
  destruct (String.prefix "DF" f || String.prefix "ADF" f); [apply (IH c Hc) | reflexivity].
Qed.

Lemma preorder_selects_dfs : forall n, preorder_selects n = dfs_selects n.
Proof.
  induction n as [a cs IH] using FileNode_ind_children.
  cbn [preorder_selects dfs_selects]. apply flat_map_ext_in. intros c Hc.
  rewrite List.Forall_forall in IH.
  destruct (name_of c) as [f|]; [|reflexivity].
  rewrite is_df_name_prefix. unfold df_or_adf_prefix.
  destruct (String.prefix "DF" f || String.prefix "ADF" f); [|reflexivity].
  rewrite (IH c Hc). reflexivity.
Qed.

Lemma preorder_listing_tree : forall n indent,
  preorder_listing indent n = tree_listing indent n.
Proof.
  induction n as [a cs IH] using FileNode_ind_children. intros indent.
  cbn [preorder_listing tree_listing]. apply flat_map_ext_in. intros c Hc.
  rewrite List.Forall_forall in IH.
  destruct (name_of c) as [f|]; [|reflexivity].
  rewrite is_df_name_prefix. unfold df_or_adf_prefix.
  destruct (String.prefix "DF" f || String.prefix "ADF" f); [|reflexivity].
  rewrite (IH c Hc). reflexivity.
Qed.

Lemma preorder_files_dfs : forall n, preorder_files n = dfs_files n.
Proof.
  induction n as [a cs IH] using FileNode_ind_children.
  cbn [preorder_files dfs_files]. apply flat_map_ext_in. intros c Hc.
  rewrite List.Forall_forall in IH.
  destruct (name_of c) as [f|]; [|reflexivity].
  rewrite is_df_name_prefix. unfold df_or_adf_prefix.
  destruct (String.prefix "DF" f || String.prefix "ADF" f); [|reflexivity].
  apply (IH c Hc).
Qed.

(** C3.  On a card that accepts the SELECT of its directories, [walk]
    comes back with the cursor where it was, and it went through the tree
    under the selected node depth first and in pre-order: the names of a
    node are taken in the order of its listing, each is visited (printed,
    when no action is given) before the nodes under it, and for each
    name that begins with DF or ADF the walk selects the child, walks
    the subtree of the child and selects [..] before it goes on to the
    next name.  The same SELECTs are made when an action that only
    prints is given, and the action is run on the other names in the
    order of the traversal. *)
Theorem walk_is_depth_first_preorder :
  forall (n : FileNode) (fuel indent : nat) (up : list FileNode)
         (reqs : list request) (np : bool) (pr : string) (out : list string),
    directories_selectable n = true ->
    height n <= fuel ->
    walk fuel indent None (mk_app (mk_state n up reqs) np pr out)
    = (Return tt,
       mk_app (mk_state n up (reqs ++ preorder_selects n)) np pr
              (out ++ preorder_listing indent n))
    /\
    forall note : string -> string,
      walk fuel indent (Some (fun f => poutput (note f)))
           (mk_app (mk_state n up reqs) np pr out)
      = (Return tt,
         mk_app (mk_state n up (reqs ++ preorder_selects n)) np pr
                (out ++ map note (preorder_files n))).
Proof.
  intros n fuel indent up reqs np pr out Hw Hh.
  rewrite directories_selectable_walkable in Hw.
  rewrite preorder_selects_dfs, preorder_listing_tree, preorder_files_dfs. split.
  - rewrite (walk_on_card None (fun _ => true)
               (fun _ _ _ _ => []) (fun _ _ _ _ => [])).
    + rewrite walk_req_no_action, walk_out_no_action. reflexivity.
    + discriminate.
    + exact Hw.
    + exact Hh.
  - intros note.
    rewrite (walk_with_printer (fun f => [note f])); try assumption.
    + rewrite flat_map_singleton. reflexivity.
    + intros f app. reflexivity.
Qed.

End DepthFirst.

(** ** The export on a card *)

Section ExportOnCard.

Lemma last_item_snoc (l : list string) (x : string) : last_item (l ++ [x]) = inr x.
Proof. unfold last_item. rewrite rev_unit. reflexivity. Qed.

Lemma resolve_child_name (d c : FileNode) (f : string) :
  resolve_child d f = Some c -> plain_name f = true -> name_of c = Some f.
Proof.
  intros Hres Hp. destruct (plain_name_parts f Hp) as (_ & _ & _ & _ & Hfid).
  unfold resolve_child in Hres. rewrite Hfid in Hres.
  apply find_some in Hres as [_ Hnamed]. apply (named_spec f c), Hnamed.
Qed.

(** The records of a file whose reads all succeed, read in a row. *)
Lemma read_records_on_card (c : FileNode) (answers : list (exn + string)) up :
  f_type (attrs_of c) = EF (LinearFixed answers) \/
  f_type (attrs_of c) = EF (Cyclic answers) ->
  forall post pre reqs,
    answers = pre ++ post ->
    all_read post = true ->
    let indices := map (fun i => (1 + Z.of_nat i)%Z) (seq (length pre) (length post)) in
    read_records indices (mk_state c up reqs)
    = (inr (values post), mk_state c up (reqs ++ map ReqReadRecord indices)).
Proof.
  intros Htype. induction post as [|answer post IH]; intros pre reqs Hans Hall indices.
  - subst indices. cbn. rewrite app_nil_r. reflexivity.
  - cbn [all_read forallb] in Hall. apply andb_prop in Hall as [Hv Hall].
    destruct answer as [e|v]; [discriminate|].
    subst indices. cbn [length seq map read_records].
    assert (Hread : read_record (1 + Z.of_nat (length pre)) (mk_state c up reqs)
                    = (inr v, mk_state c up (reqs ++ [ReqReadRecord (1 + Z.of_nat (length pre))]))).
    { change (read_record (1 + Z.of_nat (length pre)))
        with (fs_read_record (1 + Z.of_nat (length pre))).
      unfold fs_read_record, log. cbn [cursor ancestors requests]. f_equal.
      assert (Hrange : ((1 <=? 1 + Z.of_nat (length pre))
                        && (1 + Z.of_nat (length pre) <=? Z.of_nat (length answers)))%Z
                       = true).
      { apply andb_true_intro. split; apply Z.leb_le; [lia|].
        rewrite Hans, length_app. cbn [length]. lia. }
      assert (Hnth : nth (Z.to_nat (1 + Z.of_nat (length pre) - 1)) answers
                         (inl "OutOfRange") = inr v).
      { replace (Z.to_nat (1 + Z.of_nat (length pre) - 1)) with (length pre) by lia.
        rewrite Hans. apply nth_middle. }
      destruct Htype as [-> | ->]; rewrite Hrange, Hnth; reflexivity. }
    rewrite Hread.
    specialize (IH (pre ++ [inr v]) (reqs ++ [ReqReadRecord (1 + Z.of_nat (length pre))])).
    rewrite length_app in IH. cbn [length] in IH.
    replace (length pre + 1) with (S (length pre)) in IH by lia.
    cbv zeta in IH. rewrite IH.
    + cbn [values flat_map app]. rewrite <- app_assoc. reflexivity.
    + rewrite <- app_assoc. exact Hans.
    + exact Hall.
Qed.

(** What a readable file gives when its data are read. *)
Lemma dumped_on_card (c : FileNode) up reqs :
  readable c = true ->
  exists fd,
    fcp_file_descriptor (decode_fcp c) = Some fd /\
    structure fd = Some (structure_tag c) /\
    dumped (structure_tag c) fd (mk_state c up reqs) (data_lines c)
           (mk_state c up (reqs ++ data_requests c)).
Proof.
  unfold readable, decode_fcp, structure_tag, data_lines, data_requests.
  intros Hr. apply andb_prop in Hr as [_ Hr].
  destruct (f_type (attrs_of c)) as [| | |[[e|hex]|answers|answers|]] eqn:Htype;
    try discriminate; eexists; (split; [reflexivity|]); (split; [reflexivity|]).
  - apply dumped_transparent.
    change (read_binary (mk_state c up reqs))
      with (fs_read_binary (mk_state c up reqs)).
    unfold fs_read_binary, log. cbn [cursor ancestors requests]. rewrite Htype.
    reflexivity.
  - apply (dumped_records "linear_fixed" _ _ (Z.of_nat (length answers)));
      [left; reflexivity | reflexivity |].
    pose proof (read_records_on_card c answers up (or_introl Htype) answers [] reqs
                  eq_refl Hr) as Hrun.
    cbv zeta in Hrun. cbn [length] in Hrun. unfold range.
    replace (Z.to_nat (Z.of_nat (length answers) + 1 - 1)) with (length answers) by lia.
    exact Hrun.
  - apply (dumped_records "cyclic" _ _ (Z.of_nat (length answers)));
      [right; reflexivity | reflexivity |].
    pose proof (read_records_on_card c answers up (or_intror Htype) answers [] reqs
                  eq_refl Hr) as Hrun.
    cbv zeta in Hrun. cbn [length] in Hrun. unfold range.
    replace (Z.to_nat (Z.of_nat (length answers) + 1 - 1)) with (length answers) by lia.
    exact Hrun.
  - rewrite app_nil_r. apply dumped_nothing; discriminate.
Qed.

(** [export] of a readable file of the selected directory: the entry is
    written and the cursor is back on the directory. *)
Lemma export_on_card (d c : FileNode) (f : string) up reqs np pr out :
  resolve_child d f = Some c ->
  plain_name f = true ->
  accepted d = true ->
  readable c = true ->
  export f (mk_app (mk_state d up reqs) np pr out)
  = (Return tt,
     mk_app (mk_state d up (reqs ++ export_requests f c)) np pr
            (out ++ export_entry d up c)).
Proof.
  intros Hres Hp Hd Hr.
  assert (Hacc : accepted c = true)
    by (unfold readable in Hr; apply andb_prop in Hr as [Hacc _]; exact Hacc).
  destruct (dumped_on_card c (d :: up) (reqs ++ [ReqSelect f]) Hr)
    as (fd & Hfd & Hs & Hdump).
  rewrite (export_run f _ (decode_fcp c) fd (structure_tag c)
             (mk_state c (d :: up) (reqs ++ [ReqSelect f]))
             (label true c) (label false c) (data_lines c)
             (mk_state c (d :: up) ((reqs ++ [ReqSelect f]) ++ data_requests c))
             (inr (decode_fcp d))
             (mk_state d up (((reqs ++ [ReqSelect f]) ++ data_requests c)
                             ++ [ReqSelect ".."]))).
  - cbn [rs numeric_path prompt stdout closing app].
    unfold export_entry, export_requests.
    change (fully_qualified_path true (mk_state d up reqs))
      with (map (label true) (rev (d :: up))).
    change (fully_qualified_path false (mk_state d up reqs))
      with (map (label false) (rev (d :: up))).
    change (fully_qualified_path true (mk_state c (d :: up) (reqs ++ [ReqSelect f])))
      with (map (label true) (rev (d :: up) ++ [c])).
    rewrite <- !app_assoc. reflexivity.
  - apply select_child; assumption.
  - exact Hfd.
  - exact Hs.
  - change (last_item (map (label true) (rev (d :: up) ++ [c])) = inr (label true c)).
    rewrite map_app. apply last_item_snoc.
  - change (last_item (map (label false) (rev (d :: up) ++ [c])) = inr (label false c)).
    rewrite map_app. apply last_item_snoc.
  - exact Hdump.
  - apply select_parent, Hd.
Qed.

Lemma walk_out_export : forall n indent up,
  walk_out true (fun d up' _ c => export_entry d up' c) indent up n
  = export_script up n.
Proof.
  induction n as [a cs IH] using FileNode_ind_children. intros indent up.
  cbn [walk_out export_script]. apply flat_map_ext_in. intros c Hc.
  rewrite List.Forall_forall in IH.
  destruct (name_of c) as [f|]; [|reflexivity].
  cbn [app]. destruct (is_df_name f); [|reflexivity]. apply (IH c Hc).
Qed.

(** The export of a whole tree of readable files. *)
Lemma walk_export_on_card (n : FileNode) (fuel : nat) up reqs np pr out :
  walkable readable n = true ->
  height n <= fuel ->
  exists reqs',
    walk fuel 0 (Some export) (mk_app (mk_state n up reqs) np pr out)
    = (Return tt, mk_app (mk_state n up reqs') np pr (out ++ export_script up n)).
Proof.
  intros Hw Hh. eexists.
  rewrite (walk_on_card (Some export) readable
             (fun d up' _ c => export_entry d up' c)
             (fun _ _ f c => export_requests f c)).
  - rewrite walk_out_export. reflexivity.
  - intros act Hact d up' f c reqs1 np1 pr1 out1 Hres Hp Hd Hr.
    injection Hact as <-. apply export_on_card; assumption.
  - exact Hw.
  - exact Hh.
Qed.

End ExportOnCard.

(** ** The claims on walk, export command and path round trip *)

Section Claims.

(** C8.  [walk] takes a name for a directory exactly when the name
    begins with DF or with ADF, whatever the type of the node.  With an
    action, the walk changes the application only through SELECT and
    through the action run on names that fail this test; and on a card
    that accepts the SELECT of what the walk enters, an action that notes
    its argument is run on the names that fail the test, each once, in the
    order of the traversal, and on no name that begins with DF or ADF. *)
Theorem walk_sorts_children_by_name_prefix :
  (forall f : string,
     is_df_name f = true <->
     String.prefix "DF" f = true \/ String.prefix "ADF" f = true)
  /\
  (forall (RS : Type) (H : RuntimeState RS) (P : PysimApp RS -> Prop)
          (act : string -> Cmd RS unit),
     (forall name, preserves P (call (select name))) ->
     (forall f, String.prefix "DF" f = false -> String.prefix "ADF" f = false ->
                preserves P (act f)) ->
     forall fuel indent, preserves P (walk fuel indent (Some act)))
  /\
  (forall (n : FileNode) (fuel indent : nat) (up : list FileNode)
          (reqs : list request) (np : bool) (pr : string) (out : list string),
     walkable (fun _ => true) n = true ->
     height n <= fuel ->
     stdout (snd (walk fuel indent (Some poutput)
                       (mk_app (mk_state n up reqs) np pr out)))
     = out ++ dfs_files n
     /\ Forall (fun f => String.prefix "DF" f = false /\
                         String.prefix "ADF" f = false) (dfs_files n)).
Proof.
  split; [|split].
  - intros f. rewrite is_df_name_prefix. apply orb_true_iff.
  - intros RS H P act Hsel Hact fuel indent.
    apply preserves_walk; [exact Hsel|].
    intros f Hf. rewrite is_df_name_prefix in Hf.
    apply orb_false_iff in Hf as [Hdf Hadf]. apply Hact; assumption.
  - intros n fuel indent up reqs np pr out Hw Hh. split.
    + rewrite (walk_with_printer (fun f => [f]) poutput); try assumption.
      * cbn [snd stdout]. rewrite flat_map_singleton, map_id. reflexivity.
      * intros f app. reflexivity.
    + clear. induction n as [a cs IH] using FileNode_ind_children.
      cbn [dfs_files]. rewrite List.Forall_forall in IH.
      apply List.Forall_forall. intros f Hf.
      apply in_flat_map in Hf as (c & Hc & Hf).
      destruct (name_of c) as [g|]; [|destruct Hf].
      destruct (is_df_name g) eqn:Hg.
      * specialize (IH c Hc). rewrite List.Forall_forall in IH. apply IH, Hf.
      * destruct Hf as [<- | []]. rewrite is_df_name_prefix in Hg.
        apply orb_false_iff in Hg. exact Hg.
Qed.

(** C6, as amended.  Without a file name, and with the empty one, the
    export command is the walk with [export] as its action; on a card
    whose files can all be read it writes the entry of every file the
    depth-first walk meets, in that order, and comes back with the cursor
    where it was.  With a file name that is not empty it is [export] of
    that name and nothing else: the result does not depend on the fuel of
    the walk nor on the listing of children. *)
Theorem export_command_walks_or_exports_one :
  (forall (RS : Type) (H : RuntimeState RS) (fuel : nat) (app : PysimApp RS),
     do_export fuel None app = walk fuel 0 (Some export) app /\
     do_export fuel (Some "") app = walk fuel 0 (Some export) app)
  /\
  (forall (n : FileNode) (fuel : nat) (up : list FileNode)
          (reqs : list request) (np : bool) (pr : string) (out : list string),
     walkable readable n = true ->
     height n <= fuel ->
     exists reqs',
       do_export fuel None (mk_app (mk_state n up reqs) np pr out)
       = (Return tt, mk_app (mk_state n up reqs') np pr (out ++ export_script up n)))
  /\
  (forall (RS : Type) (H : RuntimeState RS) (fuel : nat) (name : string)
          (app : PysimApp RS),
     name <> "" ->
     do_export fuel (Some name) app = export name app)
  /\
  (forall (RS : Type) sel fqp names names' rb rr (name : string) (app : PysimApp RS),
     @export RS (Build_RuntimeState RS sel fqp names rb rr) name app
     = @export RS (Build_RuntimeState RS sel fqp names' rb rr) name app).
Proof.
  repeat split.
  - intros n fuel up reqs np pr out Hw Hh.
    apply walk_export_on_card; assumption.
  - intros RS H fuel name app Hne. unfold do_export.
    apply String.eqb_neq in Hne. rewrite Hne. reflexivity.
Qed.

End Claims.

(** ** Select and the path of the cursor *)

Section RoundTrip.

Lemma split_path_segment (x rest : string) :
  no_slash x = true ->
  split_path (x +:+ "/" +:+ rest) = x :: split_path rest.
Proof.
  induction x as [|c x IH]; intros Hns.
  - reflexivity.
  - unfold no_slash in Hns. cbn [list_ascii_of_string forallb] in Hns.
    apply andb_prop in Hns as [Hc Hrest]. apply negb_true_iff in Hc.
    change (String c x +:+ "/" +:+ rest) with (String c (x +:+ "/" +:+ rest)).
    cbn [split_path]. rewrite Hc, (IH Hrest). reflexivity.
Qed.

Lemma split_path_join (els : list string) :
  els <> [] ->
  Forall (fun el => plain_name el = true) els ->
  split_path (join "/" els) = els.
Proof.
  induction els as [|el els IH]; intros Hne Hall; [congruence|].
  apply Forall_cons in Hall as [Hel Hall].
  destruct (plain_name_parts el Hel) as (Hnonempty & _ & _ & Hns & _).
  destruct els as [|el' els'].
  - cbn. apply split_path_no_slash; assumption.
  - change (join "/" (el :: el' :: els'))
      with (el +:+ "/" +:+ join "/" (el' :: els')).
    rewrite split_path_segment by exact Hns.
    rewrite IH; [reflexivity | discriminate | exact Hall].
Qed.

Lemma path_elements_absolute (els : list string) :
  Forall (fun el => plain_name el = true) els ->
  path_elements ("/" +:+ join "/" els) = els /\
  is_absolute ("/" +:+ join "/" els) = true.
Proof.
  intros Hall. split.
  - unfold path_elements.
    change ("/" +:+ join "/" els) with (String "/" (join "/" els)).
    cbn [split_path Ascii.eqb Bool.eqb]. cbn [List.filter String.eqb negb].
    destruct els as [|el els]; [reflexivity|].
    rewrite split_path_join by (discriminate || exact Hall).
    apply forallb_filter_id. apply forallb_forall. intros x Hx.
    rewrite List.Forall_forall in Hall.
    destruct (plain_name_parts x (Hall x Hx)) as (Hne & _).
    apply negb_true_iff, String.eqb_neq, Hne.
  - change ("/" +:+ join "/" els) with (String "/" (join "/" els)).
    unfold is_absolute. cbn [String.prefix].
    destruct (ascii_dec "/" "/"); [|congruence].
    destruct (join "/" els); reflexivity.
Qed.

Lemma last_default {A} (l : list A) : forall x d d',
  List.last (x :: l) d = List.last (x :: l) d'.
Proof.
  induction l as [|y l IH]; intros x d d'; [reflexivity|].
  change (List.last (y :: l) d = List.last (y :: l) d'). apply IH.
Qed.

(** The MF stays at the bottom of the selection stack. *)
Lemma last_push (cur c : FileNode) (up : list FileNode) :
  List.last (cur :: up) c = List.last up cur.
Proof.
  destruct up as [|p up]; [reflexivity|].
  change (List.last (p :: up) c = List.last (p :: up) cur). apply last_default.
Qed.

(** Descending by names adds these names to the path of the cursor. *)
Lemma resolve_names (els : list string) : forall cur up c' up',
  Forall (fun el => plain_name el = true) els ->
  Forall (fun el => is_mf_token (List.last up cur) el = false) els ->
  resolve_elements (cur, up) els = inr (c', up') ->
  map (label true) (rev (c' :: up')) = map (label true) (rev (cur :: up)) ++ els.
Proof.
  induction els as [|el els IH]; intros cur up c' up' Hall Hmf Hres.
  - cbn in Hres. injection Hres as <- <-. rewrite app_nil_r. reflexivity.
  - apply Forall_cons in Hall as [Hel Hall]. apply Forall_cons in Hmf as [Hno Hmf].
    destruct (plain_name_parts el Hel) as (_ & Hdd & Hd & _ & Hfid).
    cbn [resolve_elements resolve_element] in Hres. rewrite Hdd, Hd in Hres.
    destruct (resolve_child cur el) as [c|] eqn:Hchild.
    + unfold accept in Hres.
      destruct (f_select_error (attrs_of c)); [discriminate|].
      assert (Hmf' : Forall (fun el => is_mf_token (List.last (cur :: up) c) el = false) els)
        by (rewrite last_push; exact Hmf).
      rewrite (IH c (cur :: up) c' up' Hall Hmf' Hres).
      cbn [rev]. rewrite !map_app, <- !app_assoc. cbn [map app].
      unfold label at 3. rewrite (resolve_child_name cur c el Hchild Hel).
      reflexivity.
    + cbv zeta in Hres. rewrite Hno in Hres. unfold discover in Hres.
      rewrite Hfid in Hres. discriminate.
Qed.

(** The select command on a path that resolves. *)
Lemma do_select_run (json_dumps : fcp_dec -> string) (path : string)
    (app : PysimApp state) :
  fst (do_select json_dumps path app) = Return tt ->
  exists c up,
    resolve_elements
      (if is_absolute path then (root_of (rs app), [])
       else (cursor (rs app), ancestors (rs app)))
      (path_elements path) = inr (c, up) /\
    rs (snd (do_select json_dumps path app))
    = mk_state c up (requests (rs app) ++ [ReqSelect path]) /\
    prompt (snd (do_select json_dumps path app))
    = "pySIM-shell ("
      +:+ join "/" (map (label (negb (numeric_path app))) (rev (c :: up))) +:+ ")> ".
Proof.
  unfold do_select, bind, call.
  change (select path (rs app)) with (fs_select path (rs app)). unfold fs_select.
  destruct (resolve_elements _ (path_elements path)) as [e|[c up]] eqn:Hres.
  - cbn. discriminate.
  - intros _. exists c, up. split; [reflexivity|]. split; reflexivity.
Qed.

(** C7, as amended.  The select command on an absolute path whose
    elements are names, that is, none of them a 4-hex-digit file
    identifier, the parent-reference, the current-node token or a token
    for the MF: when the path is valid, so that the command completes,
    the path of the cursor read with names preferred, which is the path
    shown in the prompt, is the label of the MF followed by the elements
    of the path.  When the name of the MF, borne by none of its
    children, is put before such elements, the path of the cursor is the
    elements of the path and nothing else. *)
Theorem select_then_current_path_round_trip :
  forall (json_dumps : fcp_dec -> string) (app : PysimApp state) (els : list string),
    numeric_path app = false ->
    Forall (fun el => plain_name el = true) els ->
    Forall (fun el => is_mf_token (root_of (rs app)) el = false) els ->
    (let p := "/" +:+ join "/" els in
     fst (do_select json_dumps p app) = Return tt ->
     path_elements p = els /\
     fully_qualified_path true (rs (snd (do_select json_dumps p app)))
     = label true (root_of (rs app)) :: els /\
     prompt (snd (do_select json_dumps p app))
     = "pySIM-shell (" +:+ join "/" (label true (root_of (rs app)) :: els) +:+ ")> ")
    /\
    (forall mf : string,
       name_of (root_of (rs app)) = Some mf ->
       plain_name mf = true ->
       resolve_child (root_of (rs app)) mf = None ->
       let p := "/" +:+ join "/" (mf :: els) in
       fst (do_select json_dumps p app) = Return tt ->
       path_elements p = mf :: els /\
       fully_qualified_path true (rs (snd (do_select json_dumps p app))) = mf :: els /\
       prompt (snd (do_select json_dumps p app))
       = "pySIM-shell (" +:+ join "/" (mf :: els) +:+ ")> ").
Proof.
  intros json_dumps app els Hnp Hall Hmf. split.
  - intros p Hrun. subst p.
    destruct (path_elements_absolute els Hall) as [Hels Habs].
    destruct (do_select_run _ _ _ Hrun) as (c & up & Hres & Hrs & Hprompt).
    rewrite Habs, Hels in Hres. rewrite Hprompt, Hrs, Hnp.
    change (fully_qualified_path true (mk_state c up
              (requests (rs app) ++ [ReqSelect ("/" +:+ join "/" els)])))
      with (map (label true) (rev (c :: up))).
    cbn [negb]. rewrite (resolve_names els (root_of (rs app)) [] c up Hall Hmf Hres).
    split; [exact Hels|]. split; reflexivity.
  - intros mf Hname Hplain Hchild p Hrun. subst p.
    assert (Hall' : Forall (fun el => plain_name el = true) (mf :: els))
      by (constructor; assumption).
    destruct (path_elements_absolute (mf :: els) Hall') as [Hels Habs].
    destruct (do_select_run _ _ _ Hrun) as (c & up & Hres & Hrs & Hprompt).
    rewrite Habs, Hels in Hres. rewrite Hprompt, Hrs, Hnp.
    change (fully_qualified_path true (mk_state c up
              (requests (rs app) ++ [ReqSelect ("/" +:+ join "/" (mf :: els))])))
      with (map (label true) (rev (c :: up))).
    cbn [negb].
    destruct (plain_name_parts mf Hplain) as (_ & Hdd & Hd & _ & _).
    cbn [resolve_elements resolve_element] in Hres.
    rewrite Hdd, Hd, Hchild in Hres. cbv zeta in Hres.
    change (List.last [] (root_of (rs app))) with (root_of (rs app)) in Hres.
    assert (Htoken : is_mf_token (root_of (rs app)) mf = true).
    { unfold is_mf_token. rewrite Hname, String.eqb_refl. apply orb_true_r. }
    rewrite Htoken in Hres. unfold accept in Hres.
    destruct (f_select_error (attrs_of (root_of (rs app)))); [discriminate|].
    rewrite (resolve_names els (root_of (rs app)) [] c up Hall Hmf Hres).
    cbn [rev map List.app]. unfold label. rewrite Hname.
    split; [exact Hels|]. split; reflexivity.
Qed.

End RoundTrip.

(** ** The service table *)

Section ServiceTable.

Lemma EF_UST_map_dom : dom EF_UST_map = list_to_set (seqZ 1 111).
Proof. vm_compute. reflexivity. Qed.

(** A service number has an entry exactly when it lies between 1 and 111. *)
Lemma EF_UST_map_lookup (k : Z) :
  is_Some (EF_UST_map !! k) <-> (1 <= k <= 111)%Z.
Proof.
  rewrite <- elem_of_dom, EF_UST_map_dom.
  rewrite elem_of_list_to_set, elem_of_seqZ. lia.
Qed.

(** C10.  The keys of [EF_UST_map] are the integers from 1 to 111, all
    of them, and every key has a description that is not empty. *)
Theorem EF_UST_map_keys_1_to_111 :
  dom EF_UST_map = list_to_set (seqZ 1 111) /\
  size EF_UST_map = 111 /\
  map_Forall (fun _ description => description <> "") EF_UST_map.
Proof.
  split; [exact EF_UST_map_dom|]. split; [vm_compute; reflexivity|].
  apply map_Forall_to_list. vm_compute.
  repeat (apply List.Forall_cons; [discriminate|]). apply List.Forall_nil.
Qed.

End ServiceTable.

(** ** Runs on the example cards *)

Section Runs.

(** C1.  The unreadable file EF.ADN of the locked card, exported from
    DF.TELECOM: the read is refused, the failure is written as a comment,
    [export] returns, and the cursor is on EF.ADN and not on DF.TELECOM
    where it was; the [select("..")] of [export] sits in the [try] block
    after the reads and was skipped. *)
Theorem export_leaves_cursor_on_unreadable_file :
  fully_qualified_path true (rs shell_in_telecom) = ["MF"; "DF.TELECOM"] /\
  fst (do_export 0 (Some "EF.ADN") shell_in_telecom) = Return tt /\
  stdout (snd (do_export 0 (Some "EF.ADN") shell_in_telecom))
  = stdout shell_in_telecom
    ++ ["# directory:MF/DF.TELECOM (3F00/7F10)";
        "# file:EF.ADN (6F3A)";
        "# structure: transparent";
        "select MF"; "select DF.TELECOM"; "select EF.ADN";
        "# bad file:EF.ADN, SW match failed! Expected 9000 and got 6982.";
        "#"] /\
  fully_qualified_path true (rs (snd (do_export 0 (Some "EF.ADN") shell_in_telecom)))
  = ["MF"; "DF.TELECOM"; "EF.ADN"].
Proof. repeat split; vm_compute; reflexivity. Qed.

(** C2.  The export of the whole locked card: the failure of EF.ADN is
    written as a comment and the walk of DF.TELECOM goes on, but the
    cursor was left on EF.ADN, so the [select("..")] of the walk comes
    back to DF.TELECOM instead of MF, the SELECT of the next directory
    DF.GSM fails there, and the exception ends the export before EF.IMSI
    is written.  On the card without DF.GSM the SELECT of that directory
    raises in [walk] itself, where nothing catches it, and the files of
    ADF.USIM are not written either. *)
Theorem export_is_aborted_by_one_failure :
  fst (do_export 3 None (shell_on usim_only_card))
  = Raise "SW match failed! Expected 9000 and got 6a82." /\
  fst (do_export 3 None (shell_on locked_card)) = Raise "PathNotFound: DF.GSM" /\
  stdout (snd (do_export 3 None (shell_on locked_card)))
  = ["# directory:MF/DF.TELECOM (3F00/7F10)";
     "# file:EF.ADN (6F3A)";
     "# structure: transparent";
     "select MF"; "select DF.TELECOM"; "select EF.ADN";
     "# bad file:EF.ADN, SW match failed! Expected 9000 and got 6982.";
     "#"] /\
  requests (rs (snd (do_export 3 None (shell_on locked_card))))
  = [ReqSelect "DF.TELECOM"; ReqSelect "EF.ADN"; ReqReadBinary;
     ReqSelect ".."; ReqSelect "DF.GSM"] /\
  fully_qualified_path true (rs (snd (do_export 3 None (shell_on locked_card))))
  = ["MF"; "DF.TELECOM"].
Proof. repeat split; vm_compute; reflexivity. Qed.

(** C6, as stated, fails for the empty file name: [--filename ""] is
    given, and the command walks the whole tree and writes the entries of
    all four files. *)
Lemma export_command_with_empty_filename_walks :
  stdout (snd (do_export 3 (Some "") (shell_on sim_card)))
  = export_script [] sim_card /\
  requests (rs (snd (do_export 3 (Some "") (shell_on sim_card))))
  = [ReqSelect "EF.ICCID"; ReqReadBinary; ReqSelect "..";
     ReqSelect "DF.TELECOM";
     ReqSelect "EF.ADN"; ReqReadRecord 1; ReqReadRecord 2; ReqSelect "..";
     ReqSelect "EF.SDN"; ReqReadRecord 1; ReqSelect "..";
     ReqSelect "..";
     ReqSelect "DF.GSM";
     ReqSelect "EF.IMSI"; ReqReadBinary; ReqSelect "..";
     ReqSelect ".."] /\
  do_export 3 (Some "") (shell_on sim_card) <> export "" (shell_on sim_card).
Proof.
  split; [vm_compute; reflexivity|]. split; [vm_compute; reflexivity|].
  intros Heq. apply (f_equal (fun r => length (stdout (snd r)))) in Heq.
  vm_compute in Heq. discriminate.
Qed.

(** C7, as stated, fails on the card with DF.TELECOM (7F10).  By file
    identifier: [/7F10] is a valid absolute path, the select command
    completes, and the path of the cursor is MF/DF.TELECOM, whose labels
    are not the elements of the path, with or without the label of the
    MF.  By name: after [/DF.TELECOM] the path of the cursor has the
    label of the MF before the element of the path.  With the name of
    the MF in front, [/MF/DF.TELECOM], the labels are the elements, and
    no label of the MF comes before them.  With the parent-reference or
    the current-node token among the elements, [/DF.TELECOM/..] and
    [/./DF.TELECOM], the labels are not the elements either way. *)
Lemma select_by_file_id_breaks_round_trip :
  (fst (do_select (fun _ => "{}") "/7F10" (shell_on sim_card)) = Return tt /\
   path_elements "/7F10" = ["7F10"] /\
   fully_qualified_path true
     (rs (snd (do_select (fun _ => "{}") "/7F10" (shell_on sim_card))))
   = ["MF"; "DF.TELECOM"] /\
   prompt (snd (do_select (fun _ => "{}") "/7F10" (shell_on sim_card)))
   = "pySIM-shell (MF/DF.TELECOM)> " /\
   fully_qualified_path true
     (rs (snd (do_select (fun _ => "{}") "/7F10" (shell_on sim_card))))
   <> path_elements "/7F10" /\
   fully_qualified_path true
     (rs (snd (do_select (fun _ => "{}") "/7F10" (shell_on sim_card))))
   <> "MF" :: path_elements "/7F10")
  /\
  (fst (do_select (fun _ => "{}") "/DF.TELECOM" (shell_on sim_card)) = Return tt /\
   path_elements "/DF.TELECOM" = ["DF.TELECOM"] /\
   fully_qualified_path true
     (rs (snd (do_select (fun _ => "{}") "/DF.TELECOM" (shell_on sim_card))))
   = ["MF"; "DF.TELECOM"] /\
   fully_qualified_path true
     (rs (snd (do_select (fun _ => "{}") "/DF.TELECOM" (shell_on sim_card))))
   <> path_elements "/DF.TELECOM")
  /\
  (fst (do_select (fun _ => "{}") "/MF/DF.TELECOM" (shell_on sim_card)) = Return tt /\
   path_elements "/MF/DF.TELECOM" = ["MF"; "DF.TELECOM"] /\
   fully_qualified_path true
     (rs (snd (do_select (fun _ => "{}") "/MF/DF.TELECOM" (shell_on sim_card))))
   = path_elements "/MF/DF.TELECOM" /\
   fully_qualified_path true
     (rs (snd (do_select (fun _ => "{}") "/MF/DF.TELECOM" (shell_on sim_card))))
   <> "MF" :: path_elements "/MF/DF.TELECOM")
  /\
  (fst (do_select (fun _ => "{}") "/DF.TELECOM/.." (shell_on sim_card)) = Return tt /\
   path_elements "/DF.TELECOM/.." = ["DF.TELECOM"; ".."] /\
   fully_qualified_path true
     (rs (snd (do_select (fun _ => "{}") "/DF.TELECOM/.." (shell_on sim_card))))
   = ["MF"] /\
   fst (do_select (fun _ => "{}") "/./DF.TELECOM" (shell_on sim_card)) = Return tt /\
   path_elements "/./DF.TELECOM" = ["."; "DF.TELECOM"] /\
   fully_qualified_path true
     (rs (snd (do_select (fun _ => "{}") "/./DF.TELECOM" (shell_on sim_card))))
   = ["MF"; "DF.TELECOM"]).
Proof.
  repeat split; try (vm_compute; reflexivity); vm_compute; discriminate.
Qed.

(** The resolution of a token that names no known child.  The name of
    the MF selects the MF from DF.TELECOM.  The identifier of a file the
    card holds and the tree does not know is accepted in a direct
    SELECT: the node is created without a name, its data can be read,
    and it stays in the listing of DF.TELECOM after the cursor has left
    and come back.  An identifier that the card does not hold either
    fails with PathNotFound and leaves the cursor where it was. *)
Lemma select_of_unknown_token :
  let start := mk_state partly_known_card [] [] in
  fully_qualified_path true (after_selects ["DF.TELECOM"; "MF"] start) = ["MF"] /\
  get_selectable_names ["FIDS"] (after_selects ["DF.TELECOM"] start) = ["6F3A"] /\
  fully_qualified_path true (after_selects ["/DF.TELECOM/6F3B"] start)
  = ["MF"; "DF.TELECOM"; "6F3B"] /\
  fst (read_binary (after_selects ["/DF.TELECOM/6F3B"] start)) = inr "1234" /\
  get_selectable_names ["FIDS"]
    (after_selects ["/DF.TELECOM/6F3B"; "MF"; "DF.TELECOM"] start)
  = ["6F3A"; "6F3B"] /\
  fst (select "6F3C" (after_selects ["DF.TELECOM"] start)) = inl "PathNotFound: 6F3C" /\
  fully_qualified_path true (after_selects ["DF.TELECOM"; "6F3C"] start)
  = ["MF"; "DF.TELECOM"].
Proof. repeat split; vm_compute; reflexivity. Qed.

End Runs.

(** ** The theorems at work on the example cards *)

Section Witnesses.

Lemma walk_is_depth_first_preorder_witness :
  directories_selectable uicc_card = true /\
  height uicc_card <= 4 /\
  walk 4 0 None (shell_on uicc_card)
  = (Return tt,
     mk_app (mk_state uicc_card []
               [ReqSelect "ADF.USIM";
                ReqSelect "DF.PHONEBOOK"; ReqSelect "..";
                ReqSelect "..";
                ReqSelect "DF.GSM"; ReqSelect ".."])
            false "pySIM-shell (MF)> "
            ["EF.DIR";
             "ADF.USIM";
             "  EF.IMSI";
             "  DF.PHONEBOOK";
             "    EF.ADN";
             "  EF.UST";
             "DF.GSM";
             "  EF.IMSI"]) /\
  walk 4 0 (Some (fun f => poutput ("file " +:+ f))) (shell_on uicc_card)
  = (Return tt,
     mk_app (mk_state uicc_card []
               [ReqSelect "ADF.USIM";
                ReqSelect "DF.PHONEBOOK"; ReqSelect "..";
                ReqSelect "..";
                ReqSelect "DF.GSM"; ReqSelect ".."])
            false "pySIM-shell (MF)> "
            ["file EF.DIR"; "file EF.IMSI"; "file EF.ADN"; "file EF.UST";
             "file EF.IMSI"]).
Proof.
  assert (Hw : directories_selectable uicc_card = true) by reflexivity.
  assert (Hh : height uicc_card <= 4) by (vm_compute; lia).
  split; [exact Hw|]. split; [exact Hh|].
  destruct (walk_is_depth_first_preorder uicc_card 4 0 [] [] false
              "pySIM-shell (MF)> " [] Hw Hh) as [Hlist Hnote].
  split.
  - exact Hlist.
  - exact (Hnote (fun f => "file " +:+ f)).
Defined.

Lemma export_writes_entry_of_readable_file_witness :
  stdout (snd (export "EF.ICCID" (shell_on sim_card)))
  = ["# directory:MF (3F00)";
     "# file:EF.ICCID (2FE2)";
     "# structure: transparent";
     "select MF"; "select EF.ICCID";
     "update_binary 98104300000000000000";
     "#"] /\
  stdout (snd (export "EF.ADN" shell_in_sim_telecom))
  = ["# directory:MF/DF.TELECOM (3F00/7F10)";
     "# file:EF.ADN (6F3A)";
     "# structure: linear_fixed";
     "select MF"; "select DF.TELECOM"; "select EF.ADN";
     "update_record 1 ffff";
     "update_record 2 0a0b";
     "#"] /\
  stdout (snd (export "EF.LOG" (shell_on log_card)))
  = ["# directory:MF (3F00)";
     "# file:EF.LOG (2F05)";
     "# structure: cyclic";
     "select MF"; "select EF.LOG";
     "update_record 1 0b"; "update_record 2 0a"; "update_record 3 09";
     "update_record 4 08"; "update_record 5 07"; "update_record 6 06";
     "update_record 7 05"; "update_record 8 04"; "update_record 9 03";
     "update_record 10 02"; "update_record 11 01";
     "#"].
Proof.
  split; [|split].
  - pose (st1 := snd (select "EF.ICCID" (rs (shell_on sim_card)))).
    assert (Hsel : select "EF.ICCID" (rs (shell_on sim_card))
                   = (inr (mk_fcp (Some (mk_fd (Some "transparent") None))), st1))
      by reflexivity.
    destruct (export_writes_entry_of_readable_file "EF.ICCID" (shell_on sim_card)
                _ (mk_fd (Some "transparent") None) "transparent" st1
                "EF.ICCID" "2FE2" Hsel eq_refl eq_refl eq_refl eq_refl)
      as [Htransparent _].
    assert (Hread : read_binary st1
                    = (inr "98104300000000000000", snd (read_binary st1)))
      by reflexivity.
    rewrite (Htransparent eq_refl _ _ Hread). reflexivity.
  - pose (st1 := snd (select "EF.ADN" (rs shell_in_sim_telecom))).
    assert (Hsel : select "EF.ADN" (rs shell_in_sim_telecom)
                   = (inr (mk_fcp (Some (mk_fd (Some "linear_fixed") (Some 2%Z)))), st1))
      by reflexivity.
    destruct (export_writes_entry_of_readable_file "EF.ADN" shell_in_sim_telecom
                _ (mk_fd (Some "linear_fixed") (Some 2%Z)) "linear_fixed" st1
                "EF.ADN" "6F3A" Hsel eq_refl eq_refl eq_refl eq_refl)
      as [_ Hrecords].
    assert (Hread : read_records (range 1 (2 + 1)) st1
                    = (inr ["ffff"; "0a0b"], snd (read_records (range 1 (2 + 1)) st1)))
      by reflexivity.
    destruct (Hrecords (or_introl eq_refl) 2%Z _ _ eq_refl Hread) as (_ & Hout & _).
    rewrite Hout. reflexivity.
  - pose (st1 := snd (select "EF.LOG" (rs (shell_on log_card)))).
    assert (Hsel : select "EF.LOG" (rs (shell_on log_card))
                   = (inr (mk_fcp (Some (mk_fd (Some "cyclic") (Some 11%Z)))), st1))
      by reflexivity.
    destruct (export_writes_entry_of_readable_file "EF.LOG" (shell_on log_card)
                _ (mk_fd (Some "cyclic") (Some 11%Z)) "cyclic" st1
                "EF.LOG" "2F05" Hsel eq_refl eq_refl eq_refl eq_refl)
      as [_ Hrecords].
    assert (Hread : read_records (range 1 (11 + 1)) st1
                    = (inr ["0b"; "0a"; "09"; "08"; "07"; "06"; "05"; "04"; "03";
                            "02"; "01"],
                       snd (read_records (range 1 (11 + 1)) st1)))
      by reflexivity.
    destruct (Hrecords (or_intror eq_refl) 11%Z _ _ eq_refl Hread) as (_ & Hout & _).
    rewrite Hout. reflexivity.
Defined.

Lemma export_command_walks_or_exports_one_witness :
  (exists reqs',
     do_export 3 None (shell_on sim_card)
     = (Return tt,
        mk_app (mk_state sim_card [] reqs') false "pySIM-shell (MF)> "
               ([] ++ export_script [] sim_card))) /\
  do_export 3 (Some "EF.ICCID") (shell_on sim_card)
  = export "EF.ICCID" (shell_on sim_card).
Proof.
  destruct export_command_walks_or_exports_one as (_ & Hwalk & Hone & _).
  split.
  - apply (Hwalk sim_card 3 [] [] false "pySIM-shell (MF)> " []);
      [reflexivity | vm_compute; lia].
  - apply Hone. discriminate.
Defined.

Lemma select_then_current_path_round_trip_witness :
  (fully_qualified_path true
     (rs (snd (do_select (fun _ => "{}") "/DF.TELECOM/EF.ADN" (shell_on sim_card))))
   = ["MF"; "DF.TELECOM"; "EF.ADN"] /\
   prompt (snd (do_select (fun _ => "{}") "/DF.TELECOM/EF.ADN" (shell_on sim_card)))
   = "pySIM-shell (MF/DF.TELECOM/EF.ADN)> ") /\
  fully_qualified_path true
    (rs (snd (do_select (fun _ => "{}") "/MF/DF.TELECOM/EF.ADN" (shell_on sim_card))))
  = ["MF"; "DF.TELECOM"; "EF.ADN"].
Proof.
  assert (Hnames : Forall (fun el => plain_name el = true) ["DF.TELECOM"; "EF.ADN"])
    by (repeat constructor).
  assert (Hbelow : Forall (fun el => is_mf_token (root_of (rs (shell_on sim_card))) el
                                     = false) ["DF.TELECOM"; "EF.ADN"])
    by (repeat constructor).
  destruct (select_then_current_path_round_trip (fun _ => "{}") (shell_on sim_card)
              ["DF.TELECOM"; "EF.ADN"] eq_refl Hnames Hbelow) as [Hmf Hfrom].
  cbv zeta in Hmf, Hfrom. split.
  - destruct (Hmf eq_refl) as (_ & Hpath & Hprompt). split; [exact Hpath | exact Hprompt].
  - destruct (Hfrom "MF" eq_refl eq_refl eq_refl eq_refl) as (_ & Hpath & _). exact Hpath.
Defined.

Lemma walk_sorts_children_by_name_prefix_witness :
  stdout (snd (walk 3 0 (Some poutput) (shell_on odd_card))) = [] ++ ["TELECOM"] /\
  prompt (snd (walk 3 0 (Some poutput) (shell_on odd_card))) = "pySIM-shell (MF)> ".
Proof.
  destruct walk_sorts_children_by_name_prefix as (_ & Hinv & Hfiles).
  split.
  - apply (Hfiles odd_card 3 0 [] [] false "pySIM-shell (MF)> " []);
      [reflexivity | vm_compute; lia].
  - apply (Hinv state _ (fun app => prompt app = "pySIM-shell (MF)> ") poutput).
    + intros name app Hp. unfold call.
      destruct (select name (rs app)) as [[e|a] st']; exact Hp.
    + intros f _ _ app Hp. exact Hp.
    + reflexivity.
Defined.

Lemma prompt_shows_selected_path_witness :
  prompt (snd (do_select (fun _ => "{}") "/DF.TELECOM/EF.ADN" (shell_on sim_card)))
  = "pySIM-shell (MF/DF.TELECOM/EF.ADN)> ".
Proof.
  assert (Hrun : do_select (fun _ => "{}") "/DF.TELECOM/EF.ADN" (shell_on sim_card)
                 = (Return tt,
                    snd (do_select (fun _ => "{}") "/DF.TELECOM/EF.ADN"
                                   (shell_on sim_card))))
    by reflexivity.
  exact (proj2 (proj1 (prompt_shows_selected_path (fun _ => "{}")
                         "/DF.TELECOM/EF.ADN" false (shell_on sim_card) _) Hrun)).
Defined.

End Witnesses.

(** ** Further properties of export, for every runtime state *)

Section ExportFacts.

Context {RS : Type} `{RuntimeState RS}.

Implicit Types (app : PysimApp RS) (st : RS).

(** X1.  [export] never raises: whatever SELECT and the reads answer,
    it returns to its caller, and it leaves the [numeric_path] setting
    and the prompt as they were. *)
Theorem export_catches_every_exception :
  forall (filename : string) (app : PysimApp RS),
    fst (export filename app) = Return tt /\
    numeric_path (snd (export filename app)) = numeric_path app /\
    prompt (snd (export filename app)) = prompt app.
Proof.
  intros filename app. split; [apply export_returns|].
  destruct (prints_export filename app) as (_ & Hnp & Hpr & _). auto.
Qed.

(** X2.  Whatever happens to the file, what [export] writes is one
    entry: it begins with the comment line of the directory that was
    selected at the call and it ends with the line [#]. *)
Theorem export_entry_is_framed :
  forall (filename : string) (app : PysimApp RS),
  exists middle : list string,
    stdout (snd (export filename app))
    = stdout app
      ++ ["# directory:" +:+ join "/" (fully_qualified_path true (rs app))
            +:+ " (" +:+ join "/" (fully_qualified_path false (rs app)) +:+ ")"]
      ++ middle ++ ["#"].
Proof.
  intros filename app. pose proof (export_returns filename app) as Hret.
  revert Hret. unfold export. rewrite !bind_ask, bind_poutput.
  set (app1 := mk_app _ _ _ _).
  assert (Htry : prints (RS:=RS) script_line
            (try_except (export_try filename)
               (fun e => poutput ("# bad file:" +:+ filename +:+ ", " +:+ e)))).
  { apply prints_try_except; [apply prints_export_try|].
    intros e. apply prints_poutput, comment_line. }
  destruct (Htry app1) as (_ & _ & _ & middle & Hout & _).
  unfold bind.
  destruct (try_except _ _ app1) as [[[]|e|] app2]; cbn [fst snd] in *;
    intros Hret; try discriminate.
  exists middle. unfold poutput. cbn [snd stdout]. rewrite Hout. subst app1.
  cbn [stdout].
  rewrite <- !app_assoc. reflexivity.
Qed.

Lemma preserves_call {A} P (op : RS -> (exn + A) * RS) :
  (forall app st', P app ->
     P (mk_app st' (numeric_path app) (prompt app) (stdout app))) ->
  preserves P (call op).
Proof.
  intros HP app Happ. unfold call.
  destruct (op (rs app)) as [[e|a] st']; cbn; apply HP, Happ.
Qed.

Lemma preserves_poutput P line :
  (forall app, P app ->
     P (mk_app (rs app) (numeric_path app) (prompt app) (stdout app ++ [line]))) ->
  preserves P (poutput line).
Proof. intros HP app Happ. cbn. apply HP, Happ. Qed.

(** What [walk] keeps, with or without an action. *)
Lemma preserves_walk_any P (action : option (string -> Cmd RS unit)) :
  (forall name, preserves P (call (select name))) ->
  (forall line, action = None -> preserves P (poutput line)) ->
  (forall act f, action = Some act -> preserves P (act f)) ->
  forall fuel indent, preserves P (walk fuel indent action).
Proof.
  intros Hsel Hout Hact. induction fuel as [|fuel IH]; intros indent; simpl.
  - intros app HP. exact HP.
  - apply preserves_bind; [apply preserves_ask|]. intros files.
    apply preserves_for_each. intros f. unfold walk_file.
    apply preserves_bind.
    + destruct action; [apply preserves_ret | apply Hout; reflexivity].
    + intros _. destruct (is_df_name f).
      * repeat (apply preserves_bind; [| intros ?]); auto using preserves_ret.
      * destruct action as [act|]; [apply (Hact act f eq_refl) | apply preserves_ret].
Qed.

(** X8.  Every line the export command writes, for one file or for a
    whole tree, is a comment or one of the three command lines, also
    when the command ends with an exception or when the walk is cut
    short. *)
Theorem export_command_writes_script_lines :
  forall (fuel : nat) (filename : option string) (app : PysimApp RS),
  exists lines : list string,
    stdout (snd (do_export fuel filename app)) = stdout app ++ lines /\
    Forall script_line lines.
Proof.
  intros fuel filename app.
  set (P := fun a : PysimApp RS =>
              exists lines, stdout a = stdout app ++ lines /\ Forall script_line lines).
  assert (Hstart : P app) by (exists []; rewrite app_nil_r; auto).
  assert (Hexport : forall f, preserves P (export f)).
  { intros f a (lines & Hlines & Hall).
    destruct (prints_export f a) as (_ & _ & _ & more & Hmore & Hall').
    exists (lines ++ more). rewrite Hmore, Hlines, app_assoc. split; [reflexivity|].
    apply Forall_app; auto. }
  assert (Hwalk : preserves P (walk fuel 0 (Some export))).
  { apply preserves_walk_any.
    - intros name. apply preserves_call. intros a st' Ha. exact Ha.
    - discriminate.
    - intros act f Hact. injection Hact as <-. apply Hexport. }
  unfold do_export. destruct filename as [name|]; [|apply Hwalk, Hstart].
  destruct (String.eqb name ""); [apply Hwalk | apply Hexport]; exact Hstart.
Qed.

End ExportFacts.

(** ** What export does when a step of its [try] block fails *)

Section ExportFailures.

Context {RS : Type} `{RuntimeState RS}.

Implicit Types (app : PysimApp RS) (st : RS).

Lemma bind_lift_raise {A B} (r : exn + A) (k : A -> Cmd RS B) app e :
  r = inl e -> bind (lift_result r) k app = (Raise e, app).
Proof. intros ->. reflexivity. Qed.

Lemma for_each_app {A} (l1 l2 : list A) (body : A -> Cmd RS unit) app :
  for_each (l1 ++ l2) body app
  = bind (for_each l1 body) (fun _ => for_each l2 body) app.
Proof.
  revert app. induction l1 as [|x l1 IH]; intros app; [reflexivity|].
  cbn [List.app for_each]. unfold bind in IH |- *.
  destruct (body x app) as [[[]|e|] app1]; [apply IH | reflexivity | reflexivity].
Qed.

Lemma map_seq_from {B} : forall (len : nat) (f : nat -> B) (start : nat),
  map f (seq start len) = map (fun i => f (start + i)) (seq 0 len).
Proof.
  induction len as [|len IH]; intros f start; [reflexivity|].
  cbn [seq map]. f_equal; [f_equal; lia|].
  rewrite (IH f (S start)), (IH (fun i => f (start + i)) 1).
  apply map_ext. intros i. f_equal. lia.
Qed.

Lemma range_split (r n : Z) :
  (1 <= r <= n)%Z ->
  range 1 (n + 1) = range 1 r ++ r :: range (r + 1) (n + 1).
Proof.
  intros Hr. unfold range.
  replace (Z.to_nat (n + 1 - 1)) with (Z.to_nat (r - 1) + S (Z.to_nat (n - r))) by lia.
  replace (Z.to_nat (n + 1 - (r + 1))) with (Z.to_nat (n - r)) by lia.
  rewrite seq_app, map_app. cbn [seq map Nat.add]. f_equal. f_equal; [lia|].
  rewrite map_seq_from. apply map_ext. intros i. lia.
Qed.

(** Runs [export] up to the line with the name of the file. *)
Ltac export_to_file_line Hsel Hname Hfid :=
  unfold export; rewrite !bind_ask, bind_poutput;
  cbn [rs numeric_path prompt stdout];
  unfold bind at 1; unfold try_except, export_try;
  rewrite (bind_call_ok _ _ _ _ _ _ _ _ Hsel);
  cbn [rs numeric_path prompt stdout];
  rewrite !bind_ask; cbn [rs numeric_path prompt stdout];
  rewrite (bind_lift_ok _ _ _ _ Hname), (bind_lift_ok _ _ _ _ Hfid), bind_poutput.

(** Closes a run of [export] that ended in the handler. *)
Ltac export_handler :=
  unfold poutput; cbn [rs numeric_path prompt stdout];
  rewrite <- ?app_assoc; reflexivity.

(** X4.  A decoded FCP that lacks a key [export] reads: without
    [file_descriptor], or without [structure] in it, the entry holds the
    directory line, the file line and the [KeyError] as a comment; without
    [num_of_rec] for a record structure the error comes after the [select]
    lines.  In each case no read is made and the runtime state is left as
    the SELECT of the file left it. *)
Theorem export_reports_missing_key :
  forall (filename : string) (app : PysimApp RS) (fcp : fcp_dec) (st1 : RS)
         (name fid : string),
    select filename (rs app) = (inr fcp, st1) ->
    last_item (fully_qualified_path true st1) = inr name ->
    last_item (fully_qualified_path false st1) = inr fid ->
    let dir_line :=
      "# directory:" +:+ join "/" (fully_qualified_path true (rs app))
        +:+ " (" +:+ join "/" (fully_qualified_path false (rs app)) +:+ ")" in
    let file_line := "# file:" +:+ name +:+ " (" +:+ fid +:+ ")" in
    let ends_with (lines : list string) :=
      export filename app
      = (Return tt,
         mk_app st1 (numeric_path app) (prompt app) (stdout app ++ lines)) in
    (fcp_file_descriptor fcp = None ->
     ends_with [dir_line; file_line;
                "# bad file:" +:+ filename +:+ ", 'file_descriptor'"; "#"])
    /\
    (forall fd,
       fcp_file_descriptor fcp = Some fd ->
       structure fd = None ->
       ends_with [dir_line; file_line;
                  "# bad file:" +:+ filename +:+ ", 'structure'"; "#"])
    /\
    (forall fd s,
       fcp_file_descriptor fcp = Some fd ->
       structure fd = Some s ->
       s = "linear_fixed" \/ s = "cyclic" ->
       num_of_rec fd = None ->
       ends_with ([dir_line; file_line; "# structure: " +:+ s]
                  ++ map (fun segment => "select " +:+ segment)
                         (fully_qualified_path true st1)
                  ++ ["# bad file:" +:+ filename +:+ ", 'num_of_rec'"; "#"])).
Proof.
  intros filename [st0 np pr out] fcp st1 name fid Hsel Hname Hfid.
  cbn [rs numeric_path prompt stdout] in *. cbv zeta. repeat split.
  - intros Hfd. export_to_file_line Hsel Hname Hfid.
    rewrite Hfd. cbn [getitem]. rewrite (bind_lift_raise _ _ _ _ eq_refl).
    export_handler.
  - intros fd Hfd Hs. export_to_file_line Hsel Hname Hfid.
    rewrite Hfd. cbn [getitem]. rewrite (bind_lift_ok _ _ _ _ eq_refl).
    rewrite Hs. cbn [getitem]. rewrite (bind_lift_raise _ _ _ _ eq_refl).
    export_handler.
  - intros fd s Hfd Hs Hkind Hn. export_to_file_line Hsel Hname Hfid.
    rewrite Hfd. cbn [getitem]. rewrite (bind_lift_ok _ _ _ _ eq_refl).
    rewrite Hs. cbn [getitem]. rewrite (bind_lift_ok _ _ _ _ eq_refl), bind_poutput.
    rewrite bind_for_each_poutput. cbn [rs numeric_path prompt stdout].
    assert (Hnot : String.eqb s "transparent" = false)
      by (destruct Hkind; subst; reflexivity).
    assert (Hrec : String.eqb s "cyclic" || String.eqb s "linear_fixed" = true)
      by (destruct Hkind; subst; reflexivity).
    rewrite Hnot, Hrec, bind_ret, Hn. cbn [getitem].
    unfold bind at 1. rewrite (bind_lift_raise _ _ _ _ eq_refl).
    export_handler.
Qed.

(** X5.  A read of the body of a transparent file that raises: the
    entry holds the lines written so far and the error as a comment, and
    the runtime state is the one the failed read left: the
    [select("..")] of the [try] block is not made, so the file stays
    selected. *)
Theorem export_stays_on_file_after_failed_read :
  forall (filename : string) (app : PysimApp RS) (fcp : fcp_dec)
         (fd : file_descriptor) (st1 st2 : RS) (name fid : string) (e : exn),
    select filename (rs app) = (inr fcp, st1) ->
    fcp_file_descriptor fcp = Some fd ->
    structure fd = Some "transparent" ->
    last_item (fully_qualified_path true st1) = inr name ->
    last_item (fully_qualified_path false st1) = inr fid ->
    read_binary st1 = (inl e, st2) ->
    fst (export filename app) = Return tt /\
    rs (snd (export filename app)) = st2 /\
    stdout (snd (export filename app))
    = stdout app
      ++ ["# directory:" +:+ join "/" (fully_qualified_path true (rs app))
            +:+ " (" +:+ join "/" (fully_qualified_path false (rs app)) +:+ ")";
          "# file:" +:+ name +:+ " (" +:+ fid +:+ ")";
          "# structure: transparent"]
      ++ map (fun segment => "select " +:+ segment) (fully_qualified_path true st1)
      ++ ["# bad file:" +:+ filename +:+ ", " +:+ e; "#"].
Proof.
  intros filename app fcp fd st1 st2 name fid e Hsel Hfd Hs Hname Hfid Hread.
  rewrite (export_read_failure _ _ _ _ _ _ _ _ _ Hsel Hfd Hs Hname Hfid Hread).
  auto.
Qed.

(** X6.  A record file whose record [r] cannot be read: the records
    before [r] are in the entry, one [update_record] line each, then the
    error as a comment; the records after [r] are not asked for, and the
    file stays selected. *)
Theorem export_stops_at_unreadable_record :
  forall (filename : string) (app : PysimApp RS) (fcp : fcp_dec)
         (fd : file_descriptor) (s : string) (st1 st2 st3 : RS)
         (name fid : string) (n r : Z) (hexes : list string) (e : exn),
    select filename (rs app) = (inr fcp, st1) ->
    fcp_file_descriptor fcp = Some fd ->
    structure fd = Some s ->
    s = "linear_fixed" \/ s = "cyclic" ->
    num_of_rec fd = Some n ->
    last_item (fully_qualified_path true st1) = inr name ->
    last_item (fully_qualified_path false st1) = inr fid ->
    (1 <= r <= n)%Z ->
    read_records (range 1 r) st1 = (inr hexes, st2) ->
    read_record r st2 = (inl e, st3) ->
    export filename app
    = (Return tt,
       mk_app st3 (numeric_path app) (prompt app)
         (stdout app
          ++ ["# directory:" +:+ join "/" (fully_qualified_path true (rs app))
                +:+ " (" +:+ join "/" (fully_qualified_path false (rs app)) +:+ ")";
              "# file:" +:+ name +:+ " (" +:+ fid +:+ ")";
              "# structure: " +:+ s]
          ++ map (fun segment => "select " +:+ segment) (fully_qualified_path true st1)
          ++ map record_line (combine (range 1 r) hexes)
          ++ ["# bad file:" +:+ filename +:+ ", " +:+ e; "#"])).
Proof.
  intros filename [st0 np pr out] fcp fd s st1 st2 st3 name fid n r hexes e
         Hsel Hfd Hs Hkind Hn Hname Hfid Hr Hreads Hfail.
  cbn [rs numeric_path prompt stdout] in *.
  export_to_file_line Hsel Hname Hfid.
  rewrite Hfd. cbn [getitem]. rewrite (bind_lift_ok _ _ _ _ eq_refl).
  rewrite Hs. cbn [getitem]. rewrite (bind_lift_ok _ _ _ _ eq_refl), bind_poutput.
  rewrite bind_for_each_poutput. cbn [rs numeric_path prompt stdout].
  assert (Hnot : String.eqb s "transparent" = false)
    by (destruct Hkind; subst; reflexivity).
  assert (Hrec : String.eqb s "cyclic" || String.eqb s "linear_fixed" = true)
    by (destruct Hkind; subst; reflexivity).
  rewrite Hnot, Hrec, bind_ret, Hn. cbn [getitem].
  unfold bind at 1. rewrite (bind_lift_ok _ _ _ _ eq_refl).
  rewrite (range_split r n Hr), for_each_app.
  unfold bind at 1. rewrite (for_each_read_record _ _ _ _ _ _ _ Hreads).
  cbn [for_each]. unfold bind at 1.
  rewrite (bind_call_raise _ _ _ _ _ _ _ _ Hfail).
  export_handler.
Qed.

(** X7.  A file with nothing to read: for a structure other than
    transparent, linear fixed and cyclic, and for a record structure with
    a record count of zero or less, [export] asks for no data, writes no
    update line, and goes on to the closing [select("..")]. *)
Theorem export_reads_nothing :
  forall (filename : string) (app : PysimApp RS) (fcp : fcp_dec)
         (fd : file_descriptor) (s : string) (st1 : RS) (name fid : string),
    select filename (rs app) = (inr fcp, st1) ->
    fcp_file_descriptor fcp = Some fd ->
    structure fd = Some s ->
    last_item (fully_qualified_path true st1) = inr name ->
    last_item (fully_qualified_path false st1) = inr fid ->
    (s <> "transparent" /\ s <> "linear_fixed" /\ s <> "cyclic") \/
    ((s = "linear_fixed" \/ s = "cyclic") /\
     exists n, num_of_rec fd = Some n /\ (n <= 0)%Z) ->
    export filename app
    = (Return tt,
       mk_app (snd (select ".." st1)) (numeric_path app) (prompt app)
         (stdout app
          ++ ["# directory:" +:+ join "/" (fully_qualified_path true (rs app))
                +:+ " (" +:+ join "/" (fully_qualified_path false (rs app)) +:+ ")";
              "# file:" +:+ name +:+ " (" +:+ fid +:+ ")";
              "# structure: " +:+ s]
          ++ map (fun segment => "select " +:+ segment) (fully_qualified_path true st1)
          ++ closing filename (fst (select ".." st1)) ++ ["#"])).
Proof.
  intros filename app fcp fd s st1 name fid Hsel Hfd Hs Hname Hfid Hcase.
  destruct (select ".." st1) as [r st3] eqn:Hup. cbn [fst snd].
  assert (Hdump : dumped s fd st1 [] st1).
  { destruct Hcase as [(Ht & Hl & Hc) | (Hkind & n & Hn & Hle)].
    - apply dumped_nothing; assumption.
    - pose proof (dumped_records s fd st1 n [] st1 Hkind Hn) as Hd.
      unfold range in Hd. replace (Z.to_nat (n + 1 - 1)) with 0 in Hd by lia.
      apply Hd. reflexivity. }
  rewrite (export_run _ _ _ _ _ _ _ _ _ _ _ _ Hsel Hfd Hs Hname Hfid Hdump Hup).
  reflexivity.
Qed.

End ExportFailures.

(** ** Further properties of select and of the walk *)

Section WalkFacts.

Context {RS : Type} `{RuntimeState RS}.

Implicit Types (app : PysimApp RS) (st : RS).

(** X9.  The export command and the tree command never touch the prompt
    nor the [numeric_path] setting, whatever they do to the selection:
    the prompt after them is the prompt before them. *)
Theorem walk_and_export_leave_prompt :
  forall (fuel indent : nat) (filename : option string) (app : PysimApp RS),
    (numeric_path (snd (do_export fuel filename app)) = numeric_path app /\
     prompt (snd (do_export fuel filename app)) = prompt app) /\
    (numeric_path (snd (walk fuel indent None app)) = numeric_path app /\
     prompt (snd (walk fuel indent None app)) = prompt app).
Proof.
  intros fuel indent filename app.
  set (P := fun a : PysimApp RS =>
              numeric_path a = numeric_path app /\ prompt a = prompt app).
  assert (Hstart : P app) by (split; reflexivity).
  assert (Hsel : forall name, preserves P (call (select name)))
    by (intros name; apply preserves_call; intros a st' Ha; exact Ha).
  assert (Hexport : forall f, preserves P (export f)).
  { intros f a [Hnp Hpr].
    destruct (prints_export f a) as (_ & Hnp' & Hpr' & _).
    split; congruence. }
  assert (Hwalk : forall action,
            (forall act f, action = Some act -> preserves P (act f)) ->
            forall i, preserves P (walk fuel i action)).
  { intros action Hact i. apply preserves_walk_any; [exact Hsel | | exact Hact].
    intros line _. apply preserves_poutput. intros a Ha. exact Ha. }
  split.
  - assert (Hw : preserves P (walk fuel 0 (Some export))).
    { apply Hwalk. intros act f Hact. injection Hact as <-. apply Hexport. }
    unfold do_export. destruct filename as [name|]; [|apply Hw, Hstart].
    destruct (String.eqb name ""); [apply Hw | apply Hexport]; exact Hstart.
  - apply Hwalk; [discriminate | exact Hstart].
Qed.

(** X10.  The select command: when [rs.select] raises, the command ends
    with the same exception, prints nothing and does not recompute the
    prompt, while the runtime state is the one the failed SELECT left;
    when it succeeds, the command calls [poutput] once, with the text
    [json.dumps(fcp_dec, indent=4)] of the decoded FCP, which may run
    over several lines, and writes nothing else. *)
Theorem do_select_outcomes :
  forall (json_dumps : fcp_dec -> string) (path : string) (app : PysimApp RS)
         (r : exn + fcp_dec) (st' : RS),
    select path (rs app) = (r, st') ->
    match r with
    | inl e =>
        do_select json_dumps path app
        = (Raise e, mk_app st' (numeric_path app) (prompt app) (stdout app))
    | inr fcp =>
        fst (do_select json_dumps path app) = Return tt /\
        rs (snd (do_select json_dumps path app)) = st' /\
        stdout (snd (do_select json_dumps path app))
        = stdout app ++ [json_dumps fcp]
    end.
Proof.
  intros json_dumps path [st0 np pr out] r st' Hsel.
  cbn [rs numeric_path prompt stdout] in *. unfold do_select.
  destruct r as [e|fcp].
  - apply (bind_call_raise _ _ _ _ _ _ _ _ Hsel).
  - rewrite (bind_call_ok _ _ _ _ _ _ _ _ Hsel). cbn. auto.
Qed.

Lemma for_each_ext {A} (l : list A) (b1 b2 : A -> Cmd RS unit) :
  (forall x app, b1 x app = b2 x app) ->
  forall app, for_each l b1 app = for_each l b2 app.
Proof.
  intros Hb. induction l as [|x l IH]; intros app; [reflexivity|].
  cbn [for_each]. unfold bind. rewrite Hb.
  destruct (b2 x app) as [[[]|e|] app1]; auto.
Qed.

(** The tree command on names that are no directories: it prints them. *)
Lemma for_each_print_files (recurse : Cmd RS unit) indent (names : list string) :
  Forall (fun g => is_df_name g = false) names ->
  forall app,
    for_each names (walk_file recurse indent None) app
    = (Return tt,
       mk_app (rs app) (numeric_path app) (prompt app)
              (stdout app ++ map (fun g => str_repeat "  " indent +:+ g) names)).
Proof.
  induction names as [|g names IH]; intros Hall app.
  - cbn. rewrite app_nil_r. destruct app; reflexivity.
  - apply Forall_cons in Hall as [Hg Hall].
    cbn [for_each]. unfold bind at 1. unfold walk_file at 1.
    rewrite bind_poutput, Hg. unfold ret. rewrite (IH Hall).
    cbn [rs numeric_path prompt stdout map]. rewrite <- app_assoc. reflexivity.
Qed.

(** X11.  The tree command and a directory whose SELECT is refused:
    the names before it that are no directories are printed, the name of
    the directory is printed, then the exception of the SELECT ends the
    command; the names after it are not visited, and nothing is caught. *)
Theorem tree_stops_at_refused_directory :
  forall (fuel indent : nat) (app : PysimApp RS) (before after : list string)
         (f : string) (e : exn) (st1 : RS),
    get_selectable_names ["NAMES"; "APPS"] (rs app) = before ++ f :: after ->
    Forall (fun g => is_df_name g = false) before ->
    is_df_name f = true ->
    select f (rs app) = (inl e, st1) ->
    walk (S fuel) indent None app
    = (Raise e,
       mk_app st1 (numeric_path app) (prompt app)
              (stdout app
               ++ map (fun g => str_repeat "  " indent +:+ g) (before ++ [f]))).
Proof.
  intros fuel indent [st0 np pr out] before after f e st1 Hnames Hbefore Hf Hsel.
  cbn [rs numeric_path prompt stdout] in *.
  cbn [walk]. rewrite bind_ask. cbn [rs]. rewrite Hnames, for_each_app.
  unfold bind at 1. rewrite (for_each_print_files _ _ _ Hbefore).
  cbn [rs numeric_path prompt stdout for_each].
  unfold bind at 1. unfold walk_file. rewrite bind_poutput, Hf.
  cbn [rs numeric_path prompt stdout].
  rewrite (bind_call_raise _ _ _ _ _ _ _ _ Hsel).
  rewrite map_app, app_assoc. reflexivity.
Qed.

(** X12.  [walk] does not catch what its action raises: when the action
    returns on the first names and raises on the next one, none of them a
    directory, the walk ends with that exception in the state the action
    left, and the names after it are not visited. *)
Theorem walk_passes_on_exception_of_action :
  forall (fuel indent : nat) (act : string -> Cmd RS unit) (app app1 app2 : PysimApp RS)
         (before after : list string) (f : string) (e : exn),
    get_selectable_names ["NAMES"; "APPS"] (rs app) = before ++ f :: after ->
    Forall (fun g => is_df_name g = false) (before ++ [f]) ->
    for_each before act app = (Return tt, app1) ->
    act f app1 = (Raise e, app2) ->
    walk (S fuel) indent (Some act) app = (Raise e, app2).
Proof.
  intros fuel indent act app app1 app2 before after f e Hnames Hall Hbefore Hf.
  apply Forall_app in Hall as [Hfiles Hlast]. apply Forall_cons in Hlast as [Hg _].
  cbn [walk]. rewrite bind_ask, Hnames, for_each_app.
  assert (Hsame : forall a,
    for_each before (walk_file (walk fuel (indent + 1) (Some act)) indent (Some act)) a
    = for_each before act a).
  { clear Hbefore Hnames. induction before as [|g before IH]; intros a; [reflexivity|].
    apply Forall_cons in Hfiles as [Hgf Hfiles].
    cbn [for_each]. unfold bind at 1. unfold walk_file at 1.
    rewrite bind_ret, Hgf. unfold bind.
    destruct (act g a) as [[[]|e'|] a1]; [apply IH, Hfiles | reflexivity | reflexivity]. }
  unfold bind at 1. rewrite Hsame, Hbefore.
  cbn [for_each]. unfold bind at 1. unfold walk_file. rewrite bind_ret, Hg, Hf.
  reflexivity.
Qed.

End WalkFacts.

(** ** The tree command and the data of the files *)

Section TreeNeverReads.

Variable RS : Type.
Variable sel : string -> RS -> (exn + fcp_dec) * RS.
Variable fqp : bool -> RS -> list string.
Variable names : list string -> RS -> list string.

(** X13.  The walk of the tree command reads no file: its result is the
    same whatever [read_binary] and [read_record] would answer. *)
Theorem tree_walk_never_reads :
  forall (rb rb' : RS -> (exn + string) * RS)
         (rr rr' : Z -> RS -> (exn + string) * RS)
         (fuel indent : nat) (app : PysimApp RS),
    @walk RS (Build_RuntimeState RS sel fqp names rb rr) fuel indent None app
    = @walk RS (Build_RuntimeState RS sel fqp names rb' rr') fuel indent None app.
Proof.
  intros rb rb' rr rr'. induction fuel as [|fuel IH]; intros indent app; [reflexivity|].
  cbn [walk]. rewrite !bind_ask. cbn [get_selectable_names].
  apply for_each_ext. clear app. intros f app. unfold walk_file.
  rewrite !bind_poutput. destruct (is_df_name f); [|reflexivity].
  cbn [select]. unfold bind.
  destruct (call (sel f) _) as [[fcp|e|] app1]; [|reflexivity|reflexivity].
  rewrite IH. reflexivity.
Qed.

End TreeNeverReads.

(** ** The applications registered at the start *)

Section StartupFacts.

Lemma prefix_app (p s : string) :
  String.prefix p s = true <-> exists y, s = p +:+ y.
Proof.
  revert s. induction p as [|c p IH]; intros s.
  - split; [intros _; exists s; reflexivity | intros _; destruct s; reflexivity].
  - destruct s as [|d s]; cbn [String.prefix].
    + split; [discriminate | intros [y Hy]; discriminate].
    + destruct (ascii_dec c d) as [<-|Hne].
      * rewrite IH. split; intros [y Hy]; exists y.
        -- rewrite Hy. reflexivity.
        -- injection Hy as ->. reflexivity.
      * split; [discriminate | intros [y Hy]; injection Hy as -> _; congruence].
Qed.

(** [contains] is the test for a substring. *)
Lemma contains_spec (pat s : string) :
  contains pat s = true <-> exists x y, s = x +:+ pat +:+ y.
Proof.
  induction s as [|c s IH]; cbn [contains]; rewrite orb_true_iff.
  - rewrite prefix_app. split.
    + intros [[y Hy] | Hf]; [|discriminate]. exists "", y. exact Hy.
    + intros (x & y & Hxy). left. exists y.
      destruct x; [exact Hxy | discriminate].
  - rewrite prefix_app, IH. split.
    + intros [[y Hy] | (x & y & Hxy)].
      * exists "", y. exact Hy.
      * exists (String c x), y. rewrite Hxy. reflexivity.
    + intros (x & y & Hxy). destruct x as [|d x].
      * left. exists y. exact Hxy.
      * right. injection Hxy as -> ->. exists x, y. reflexivity.
Qed.

(** X14.  How the main block tells the applications: an AID stands for
    the USIM when the digits [a0000000871002] occur somewhere in it,
    whether or not those of the ISIM occur too; for the ISIM when
    [a0000000871004] occurs and the digits of the USIM do not; the loop
    prints one line for the AID and registers the application, or
    registers nothing for an AID it does not know. *)
Theorem register_aid_by_substring :
  forall (RS : Type) (add_application : application -> RS -> (exn + unit) * RS)
         (a : string) (app : PysimApp RS),
    (application_of a = Some ADF_USIM <->
     exists x y, a = x +:+ "a0000000871002" +:+ y) /\
    (application_of a = Some ADF_ISIM <->
     (exists x y, a = x +:+ "a0000000871004" +:+ y) /\
     ~ (exists x y, a = x +:+ "a0000000871002" +:+ y)) /\
    register_aid add_application a app
    = match application_of a with
      | Some ADF_USIM =>
          bind (poutput (" USIM: " +:+ a)) (fun _ => call (add_application ADF_USIM)) app
      | Some ADF_ISIM =>
          bind (poutput (" ISIM: " +:+ a)) (fun _ => call (add_application ADF_ISIM)) app
      | None => poutput (" unknown application: " +:+ a) app
      end.
Proof.
  intros RS add a app. unfold application_of, register_aid.
  rewrite <- !contains_spec.
  destruct (contains "a0000000871002" a), (contains "a0000000871004" a);
    repeat split; try discriminate; try tauto; try reflexivity;
    try (intros [_ Hno]; exfalso; apply Hno; reflexivity);
    try (intros [Hyes _]; discriminate).
Qed.

Lemma register_aid_run {RS : Type}
    (add_application : application -> RS -> (exn + unit) * RS) (a : string)
    st np pr out :
  (forall k st0, fst (add_application k st0) = inr tt) ->
  register_aid add_application a (mk_app st np pr out)
  = (Return tt,
     mk_app (match application_of a with
             | Some k => snd (add_application k st)
             | None => st
             end) np pr (out ++ [aid_line a])).
Proof.
  intros Hadd. unfold register_aid, aid_line, application_of.
  destruct (contains "a0000000871002" a); [|destruct (contains "a0000000871004" a)];
    try reflexivity;
    rewrite bind_poutput; unfold call; cbn [rs numeric_path prompt stdout];
    match goal with |- context [add_application ?k st] =>
      pose proof (Hadd k st) as Hk; destruct (add_application k st) as [r st'];
      cbn in Hk; subst r; reflexivity
    end.
Qed.

(** X15.  The lines and the registrations of the start, when no
    registration is refused: without AIDs, be it [None] or the empty
    list, one error line is printed and nothing is registered; otherwise
    the header is printed, then one line for each AID in the order of the
    list, and the applications that were recognised are registered in
    that order, an application as often as an AID stands for it. *)
Theorem register_applications_run :
  forall (RS : Type) (add_application : application -> RS -> (exn + unit) * RS)
         (aids : option (list string)) (app : PysimApp RS),
    (forall k st, fst (add_application k st) = inr tt) ->
    let listed := match aids with Some l => l | None => [] end in
    register_applications add_application aids app
    = (Return tt,
       mk_app
         (fold_left (fun st k => snd (add_application k st))
            (flat_map (fun a => match application_of a with
                                | Some k => [k]
                                | None => []
                                end) listed)
            (rs app))
         (numeric_path app) (prompt app)
         (stdout app
          ++ match listed with
             | [] => ["error: could not determine card applications"]
             | _ => "AIDs on card:" :: map aid_line listed
             end)).
Proof.
  intros RS add aids [st np pr out] Hadd listed.
  cbn [rs numeric_path prompt stdout].
  assert (Hloop : forall l st0 out0,
    for_each l (register_aid add) (mk_app st0 np pr out0)
    = (Return tt,
       mk_app (fold_left (fun st k => snd (add k st))
                 (flat_map (fun a => match application_of a with
                                     | Some k => [k]
                                     | None => []
                                     end) l) st0)
              np pr (out0 ++ map aid_line l))).
  { induction l as [|a l IH]; intros st0 out0.
    - cbn. rewrite app_nil_r. reflexivity.
    - cbn [for_each flat_map map]. unfold bind.
      rewrite (register_aid_run add a _ _ _ _ Hadd), IH, fold_left_app.
      rewrite <- app_assoc. cbn [List.app].
      destruct (application_of a); reflexivity. }
  destruct aids as [[|a l]|]; subst listed; try reflexivity.
  unfold register_applications. rewrite bind_poutput.
  cbn [rs numeric_path prompt stdout]. rewrite Hloop, <- app_assoc. reflexivity.
Qed.

End StartupFacts.

(** ** The further properties at work on examples *)

Section MoreWitnesses.

Lemma export_select_failure_witness :
  export "EF.NONE" (shell_on sim_card)
  = (Return tt,
     mk_app (mk_state sim_card [] [ReqSelect "EF.NONE"]) false "pySIM-shell (MF)> "
            ([] ++ ["# directory:MF (3F00)";
                    "# bad file:EF.NONE, PathNotFound: EF.NONE";
                    "#"])).
Proof.
  assert (Hsel : select "EF.NONE" (rs (shell_on sim_card))
                 = (inl "PathNotFound: EF.NONE",
                    mk_state sim_card [] [ReqSelect "EF.NONE"]))
    by reflexivity.
  exact (export_select_failure "EF.NONE" (shell_on sim_card) _ _ Hsel).
Defined.

Lemma export_reports_missing_key_witness :
  @export unit (fixed_answers (inr (mk_fcp None)) ["MF"; "EF.X"] (inr "00"))
          "EF.X" (mk_app tt false "" [])
  = (Return tt,
     mk_app tt false ""
       ([] ++ ["# directory:MF/EF.X (MF/EF.X)"; "# file:EF.X (EF.X)";
               "# bad file:EF.X, 'file_descriptor'"; "#"]))
  /\
  @export unit (fixed_answers (inr (mk_fcp (Some (mk_fd None None))))
                              ["MF"; "EF.X"] (inr "00"))
          "EF.X" (mk_app tt false "" [])
  = (Return tt,
     mk_app tt false ""
       ([] ++ ["# directory:MF/EF.X (MF/EF.X)"; "# file:EF.X (EF.X)";
               "# bad file:EF.X, 'structure'"; "#"]))
  /\
  @export unit (fixed_answers (inr (mk_fcp (Some (mk_fd (Some "cyclic") None))))
                              ["MF"; "EF.X"] (inr "00"))
          "EF.X" (mk_app tt false "" [])
  = (Return tt,
     mk_app tt false ""
       ([] ++ ["# directory:MF/EF.X (MF/EF.X)"; "# file:EF.X (EF.X)";
               "# structure: cyclic"]
           ++ ["select MF"; "select EF.X"]
           ++ ["# bad file:EF.X, 'num_of_rec'"; "#"])).
Proof.
  split; [|split].
  - destruct (export_reports_missing_key
                (H:=fixed_answers (inr (mk_fcp None)) ["MF"; "EF.X"] (inr "00"))
                "EF.X" (mk_app tt false "" []) (mk_fcp None) tt "EF.X" "EF.X"
                eq_refl eq_refl eq_refl) as (Hnone & _ & _).
    exact (Hnone eq_refl).
  - destruct (export_reports_missing_key
                (H:=fixed_answers (inr (mk_fcp (Some (mk_fd None None))))
                                  ["MF"; "EF.X"] (inr "00"))
                "EF.X" (mk_app tt false "" []) (mk_fcp (Some (mk_fd None None)))
                tt "EF.X" "EF.X" eq_refl eq_refl eq_refl) as (_ & Hstructure & _).
    exact (Hstructure (mk_fd None None) eq_refl eq_refl).
  - destruct (export_reports_missing_key
                (H:=fixed_answers (inr (mk_fcp (Some (mk_fd (Some "cyclic") None))))
                                  ["MF"; "EF.X"] (inr "00"))
                "EF.X" (mk_app tt false "" [])
                (mk_fcp (Some (mk_fd (Some "cyclic") None)))
                tt "EF.X" "EF.X" eq_refl eq_refl eq_refl) as (_ & _ & Hcount).
    exact (Hcount (mk_fd (Some "cyclic") None) "cyclic" eq_refl eq_refl
                  (or_intror eq_refl) eq_refl).
Defined.

Lemma export_stays_on_file_after_failed_read_witness :
  fst (export "EF.ADN" shell_in_telecom) = Return tt /\
  fully_qualified_path true (rs (snd (export "EF.ADN" shell_in_telecom)))
  = ["MF"; "DF.TELECOM"; "EF.ADN"].
Proof.
  pose (st1 := snd (select "EF.ADN" (rs shell_in_telecom))).
  assert (Hsel : select "EF.ADN" (rs shell_in_telecom)
                 = (inr (mk_fcp (Some (mk_fd (Some "transparent") None))), st1))
    by reflexivity.
  assert (Hread : read_binary st1
                  = (inl "SW match failed! Expected 9000 and got 6982.",
                     snd (read_binary st1)))
    by reflexivity.
  destruct (export_stays_on_file_after_failed_read "EF.ADN" shell_in_telecom
              _ (mk_fd (Some "transparent") None) st1 _ "EF.ADN" "6F3A" _
              Hsel eq_refl eq_refl eq_refl eq_refl Hread) as (Hret & Hrs & _).
  split; [exact Hret|]. rewrite Hrs. reflexivity.
Defined.

Lemma export_stops_at_unreadable_record_witness :
  stdout (snd (export "EF.ADN"
                 (snd (do_select (fun _ => "{}") "DF.TELECOM" (shell_on worn_card)))))
  = ["{}"; "# directory:MF/DF.TELECOM (3F00/7F10)"; "# file:EF.ADN (6F3A)";
     "# structure: linear_fixed";
     "select MF"; "select DF.TELECOM"; "select EF.ADN";
     "update_record 1 ffff";
     "# bad file:EF.ADN, SW match failed! Expected 9000 and got 6581.";
     "#"].
Proof.
  set (app := snd (do_select (fun _ => "{}") "DF.TELECOM" (shell_on worn_card))).
  pose (st1 := snd (select "EF.ADN" (rs app))).
  assert (Hsel : select "EF.ADN" (rs app)
                 = (inr (mk_fcp (Some (mk_fd (Some "linear_fixed") (Some 3%Z)))), st1))
    by reflexivity.
  assert (Hreads : read_records (range 1 2) st1
                   = (inr ["ffff"], snd (read_records (range 1 2) st1)))
    by reflexivity.
  assert (Hfail : read_record 2 (snd (read_records (range 1 2) st1))
                  = (inl "SW match failed! Expected 9000 and got 6581.",
                     snd (read_record 2 (snd (read_records (range 1 2) st1)))))
    by reflexivity.
  assert (Hr : (1 <= 2 <= 3)%Z) by lia.
  rewrite (export_stops_at_unreadable_record "EF.ADN" app _
             (mk_fd (Some "linear_fixed") (Some 3%Z)) "linear_fixed" st1 _ _
             "EF.ADN" "6F3A" 3 2 ["ffff"] _
             Hsel eq_refl eq_refl (or_introl eq_refl) eq_refl eq_refl eq_refl
             Hr Hreads Hfail).
  reflexivity.
Defined.

Lemma export_reads_nothing_witness :
  @export unit (fixed_answers (inr (mk_fcp (Some (mk_fd (Some "ber_tlv") None))))
                              ["MF"; "EF.X"] (inl "never asked"))
          "EF.X" (mk_app tt false "" [])
  = (Return tt,
     mk_app tt false ""
       ([] ++ ["# directory:MF/EF.X (MF/EF.X)"; "# file:EF.X (EF.X)";
               "# structure: ber_tlv"]
           ++ ["select MF"; "select EF.X"] ++ [] ++ ["#"])).
Proof.
  assert (Hother : ("ber_tlv" <> "transparent" /\ "ber_tlv" <> "linear_fixed"
                    /\ "ber_tlv" <> "cyclic")%string)
    by (repeat split; discriminate).
  exact (export_reads_nothing
           (H:=fixed_answers (inr (mk_fcp (Some (mk_fd (Some "ber_tlv") None))))
                             ["MF"; "EF.X"] (inl "never asked"))
           "EF.X" (mk_app tt false "" []) _ (mk_fd (Some "ber_tlv") None)
           "ber_tlv" tt "EF.X" "EF.X" eq_refl eq_refl eq_refl eq_refl eq_refl
           (or_introl Hother)).
Defined.

Lemma do_select_outcomes_witness :
  do_select (fun _ => "{}") "EF.NONE" (shell_on sim_card)
  = (Raise "PathNotFound: EF.NONE",
     mk_app (mk_state sim_card [] [ReqSelect "EF.NONE"]) false
            "pySIM-shell (MF)> " []).
Proof.
  assert (Hsel : select "EF.NONE" (rs (shell_on sim_card))
                 = (inl "PathNotFound: EF.NONE",
                    mk_state sim_card [] [ReqSelect "EF.NONE"]))
    by reflexivity.
  exact (do_select_outcomes (fun _ => "{}") "EF.NONE" (shell_on sim_card) _ _ Hsel).
Defined.

Lemma tree_stops_at_refused_directory_witness :
  walk 1 0 None (shell_on bare_card)
  = (Raise "SW match failed! Expected 9000 and got 6a82.",
     mk_app (mk_state bare_card [] [ReqSelect "DF.GSM"]) false "pySIM-shell (MF)> "
            ([] ++ map (fun g => str_repeat "  " 0 +:+ g) (["EF.ICCID"] ++ ["DF.GSM"]))).
Proof.
  assert (Hnames : get_selectable_names ["NAMES"; "APPS"] (rs (shell_on bare_card))
                   = ["EF.ICCID"] ++ "DF.GSM" :: ["EF.PL"]) by reflexivity.
  assert (Hfiles : Forall (fun g => is_df_name g = false) ["EF.ICCID"])
    by (repeat constructor).
  assert (Hsel : select "DF.GSM" (rs (shell_on bare_card))
                 = (inl "SW match failed! Expected 9000 and got 6a82.",
                    mk_state bare_card [] [ReqSelect "DF.GSM"]))
    by reflexivity.
  exact (tree_stops_at_refused_directory 0 0 (shell_on bare_card) _ _ _ _ _
           Hnames Hfiles eq_refl Hsel).
Defined.

Lemma walk_passes_on_exception_of_action_witness :
  fst (walk 1 0 (Some (note_but "EF.SDN"))
         (snd (do_select (fun _ => "{}") "DF.TELECOM" (shell_on sim_card))))
  = Raise "refused".
Proof.
  set (app := snd (do_select (fun _ => "{}") "DF.TELECOM" (shell_on sim_card))).
  assert (Hnames : get_selectable_names ["NAMES"; "APPS"] (rs app)
                   = ["EF.ADN"] ++ "EF.SDN" :: []) by reflexivity.
  assert (Hfiles : Forall (fun g => is_df_name g = false) (["EF.ADN"] ++ ["EF.SDN"]))
    by (repeat constructor).
  assert (Hbefore : for_each ["EF.ADN"] (note_but "EF.SDN") app
                    = (Return tt, snd (for_each ["EF.ADN"] (note_but "EF.SDN") app)))
    by reflexivity.
  assert (Hfail : note_but "EF.SDN" "EF.SDN"
                    (snd (for_each ["EF.ADN"] (note_but "EF.SDN") app))
                  = (Raise "refused", snd (for_each ["EF.ADN"] (note_but "EF.SDN") app)))
    by reflexivity.
  rewrite (walk_passes_on_exception_of_action 0 0 (note_but "EF.SDN") app _ _
             _ _ _ _ Hnames Hfiles Hbefore Hfail).
  reflexivity.
Defined.

Lemma register_applications_run_witness :
  register_applications add_to
    (Some ["a0000000871002ff33ffff8907090000"; "a0000000871004ff49ffff8907090000";
           "d2760001180002ff34108389c0028b02"])
    (mk_app [] false "" [])
  = (Return tt,
     mk_app [ADF_ISIM; ADF_USIM] false ""
            ([] ++ ["AIDs on card:";
                    " USIM: a0000000871002ff33ffff8907090000";
                    " ISIM: a0000000871004ff49ffff8907090000";
                    " unknown application: d2760001180002ff34108389c0028b02"])).
Proof.
  assert (Hadd : forall k (st : list application), fst (add_to k st) = inr tt)
    by reflexivity.
  exact (register_applications_run (list application) add_to
           (Some ["a0000000871002ff33ffff8907090000";
                  "a0000000871004ff49ffff8907090000";
                  "d2760001180002ff34108389c0028b02"])
           (mk_app [] false "" []) Hadd).
Defined.

End MoreWitnesses.

(** ** A directory without directories, and a file that can be read *)

Section FlatDirectory.

Context {RS : Type} `{RuntimeState RS}.

Lemma for_each_files_action (recurse : Cmd RS unit) indent
    (act : string -> Cmd RS unit) (names : list string) :
  Forall (fun g => is_df_name g = false) names ->
  forall app,
    for_each names (walk_file recurse indent (Some act)) app = for_each names act app.
Proof.
  induction names as [|g names IH]; intros Hall app; [reflexivity|].
  apply Forall_cons in Hall as [Hg Hall].
  cbn [for_each]. unfold bind at 1. unfold walk_file at 1.
  rewrite bind_ret, Hg. unfold bind.
  destruct (act g app) as [[[]|e|] app1]; [apply IH, Hall | reflexivity | reflexivity].
Qed.

(** X16.  In a directory none of whose names begins with DF or ADF the
    walk makes no SELECT and does not recurse: without an action it
    prints the names in the order of the listing and returns, with an
    action it runs the action on the names in that order, and it is over
    at the first exception; in an empty directory it does nothing. *)
Theorem walk_of_flat_directory :
  forall (fuel indent : nat) (action : option (string -> Cmd RS unit))
         (app : PysimApp RS),
    Forall (fun g => is_df_name g = false)
           (get_selectable_names ["NAMES"; "APPS"] (rs app)) ->
    walk (S fuel) indent action app
    = match action with
      | None =>
          (Return tt,
           mk_app (rs app) (numeric_path app) (prompt app)
             (stdout app
              ++ map (fun g => str_repeat "  " indent +:+ g)
                     (get_selectable_names ["NAMES"; "APPS"] (rs app))))
      | Some act =>
          for_each (get_selectable_names ["NAMES"; "APPS"] (rs app)) act app
      end.
Proof.
  intros fuel indent action app Hflat. cbn [walk]. rewrite bind_ask.
  destruct action as [act|].
  - apply for_each_files_action, Hflat.
  - apply for_each_print_files, Hflat.
Qed.

End FlatDirectory.

Section ReadableFile.

(** X17.  On a card, the export of a file of the selected directory
    that can be read asks for the SELECT of the file, for its data, the
    whole body at once or the records from the first to the last, and for
    the SELECT of [..], in this order and nothing else; it writes the
    entry of the file and leaves the cursor on the directory. *)
Theorem export_of_readable_file_on_card :
  forall (d c : FileNode) (f : string) (up : list FileNode)
         (reqs : list request) (np : bool) (pr : string) (out : list string),
    resolve_child d f = Some c ->
    plain_name f = true ->
    accepted d = true ->
    readable c = true ->
    export f (mk_app (mk_state d up reqs) np pr out)
    = (Return tt,
       mk_app (mk_state d up
                 (reqs ++ [ReqSelect f] ++ data_requests c ++ [ReqSelect ".."]))
              np pr (out ++ export_entry d up c)).
Proof.
  intros d c f up reqs np pr out Hres Hplain Hd Hc.
  apply export_on_card; assumption.
Qed.

End ReadableFile.

Section LastWitnesses.

Lemma walk_of_flat_directory_witness :
  walk 1 0 None (snd (do_select (fun _ => "{}") "DF.TELECOM" (shell_on sim_card)))
  = (Return tt,
     mk_app (mk_state
               (directory DF "7F10" "DF.TELECOM"
                  [ ef "6F3A" "EF.ADN" (LinearFixed [inr "ffff"; inr "0a0b"]);
                    ef "6F49" "EF.SDN" (Cyclic [inr "01"]) ])
               [sim_card] [ReqSelect "DF.TELECOM"])
            false "pySIM-shell (MF/DF.TELECOM)> "
            (["{}"] ++ map (fun g => str_repeat "  " 0 +:+ g) ["EF.ADN"; "EF.SDN"])).
Proof.
  assert (Hflat : Forall (fun g => is_df_name g = false)
            (get_selectable_names ["NAMES"; "APPS"]
               (rs (snd (do_select (fun _ => "{}") "DF.TELECOM" (shell_on sim_card))))))
    by (repeat constructor).
  exact (walk_of_flat_directory 0 0 None _ Hflat).
Defined.

Lemma export_of_readable_file_on_card_witness :
  export "EF.ICCID" (shell_on sim_card)
  = (Return tt,
     mk_app (mk_state sim_card []
               ([] ++ [ReqSelect "EF.ICCID"] ++ [ReqReadBinary] ++ [ReqSelect ".."]))
            false "pySIM-shell (MF)> "
            ([] ++ ["# directory:MF (3F00)"; "# file:EF.ICCID (2FE2)";
                    "# structure: transparent"; "select MF"; "select EF.ICCID";
                    "update_binary 98104300000000000000"; "#"])).
Proof.
  exact (export_of_readable_file_on_card sim_card
           (ef "2FE2" "EF.ICCID" (Transparent (inr "98104300000000000000")))
           "EF.ICCID" [] [] false "pySIM-shell (MF)> " []
           eq_refl eq_refl eq_refl eq_refl).
Defined.

End LastWitnesses.
